(** * NotifAi: the reminder store, its persistence and the due-check loop

    A shallow embedding of [src/gui.py] (classes [ReminderApp],
    [ReminderCheckerThread] and [EditReminderDialog]) and the proofs of the
    properties its specification states about them.

    Conventions of the embedding.
    - A reminder is the Python [dict] the code builds and reads: a finite map
      from string keys to Python values ([gmap string value]).
    - The store [self.reminders] is a [list] of such dicts.  Every dict of the
      store is a distinct object and the checker thread is handed the very
      list the application owns ([start_reminder_thread]), so an in-place
      update of a dict through either reference is an update of the store
      entry; the embedding threads the store through every operation.
    - Anything the code reads from its environment is an argument of the
      embedded function: the clock ([datetime.now()]), the contents of the Qt
      widgets, the answers to the dialogs, the contents of the settings file.
    - An exception that no handler of the code catches is the result
      [Raise e]; for a Qt slot or [QThread.run] that is the end of the
      application or of the thread. *)

From Stdlib Require Import ZArith QArith Qcanon Ascii String List.
From Stdlib Require Import Sorting.Sorted Sorting.Permutation.
From stdpp Require Import base option list numbers strings gmap sorting.

Local Open Scope Z_scope.

(** ** Exceptions and the error monad *)

Inductive exn :=
| KeyError (key : string)
| TypeError
| ValueError.

Inductive result (A : Type) :=
| Ok (a : A)
| Raise (e : exn).
Arguments Ok {A} a.
Arguments Raise {A} e.

#[global] Instance result_ret : MRet result := fun A a => Ok a.
#[global] Instance result_bind : MBind result := fun A B f m =>
  match m with
  | Ok a => f a
  | Raise e => Raise e
  end.
#[global] Instance result_fmap : FMap result := fun A B f m =>
  match m with
  | Ok a => Ok (f a)
  | Raise e => Raise e
  end.

(** [try: m except: d] is [try: m  except (ValueError, TypeError, KeyError): d];
    the three are all the exceptions of the embedding. *)
Definition try_except {A} (m : result A) (d : A) : A :=
  match m with
  | Ok a => a
  | Raise _ => d
  end.

Definition is_ok {A} (m : result A) : bool :=
  match m with
  | Ok _ => true
  | Raise _ => false
  end.

(** ** [datetime] values

    A Python [datetime] stores its calendar fields and an optional [tzinfo].
    The only [tzinfo] objects of this program are fixed offsets
    ([datetime.timezone]), kept here as the offset in microseconds. *)

Record wallclock := Wallclock {
  year : Z; month : Z; day : Z;
  hour : Z; minute : Z; second : Z; microsecond : Z
}.

Record datetime := Datetime {
  wall : wallclock;
  tzinfo : option Z
}.

#[global] Instance wallclock_eq_dec : EqDecision wallclock.
Proof. solve_decision. Defined.
#[global] Instance datetime_eq_dec : EqDecision datetime.
Proof. solve_decision. Defined.

(** The field ranges the [datetime] constructor enforces; an offset is
    strictly between -24h and +24h. *)
Definition is_leap (y : Z) : bool :=
  (y mod 4 =? 0) && (negb (y mod 100 =? 0) || (y mod 400 =? 0)).

Definition days_in_month (y m : Z) : Z :=
  if m =? 2 then (if is_leap y then 29 else 28)
  else if (m =? 4) || (m =? 6) || (m =? 9) || (m =? 11) then 30
  else 31.

Definition valid_wallclock (w : wallclock) : bool :=
  (1 <=? year w) && (year w <=? 9999) &&
  (1 <=? month w) && (month w <=? 12) &&
  (1 <=? day w) && (day w <=? days_in_month (year w) (month w)) &&
  (0 <=? hour w) && (hour w <? 24) &&
  (0 <=? minute w) && (minute w <? 60) &&
  (0 <=? second w) && (second w <? 60) &&
  (0 <=? microsecond w) && (microsecond w <? 1000000).

Definition day_us : Z := 86400000000.

Definition valid_offset (o : Z) : bool := (- day_us <? o) && (o <? day_us).

Definition valid_datetime (d : datetime) : bool :=
  valid_wallclock (wall d) &&
  match tzinfo d with
  | Some o => valid_offset o
  | None => true
  end.

(** [_days_before_year], [_days_before_month] and [_ymd2ord] of CPython's
    [datetime] module: the proleptic Gregorian ordinal of a date. *)
Definition days_before_year (y : Z) : Z :=
  let y' := y - 1 in y' * 365 + y' / 4 - y' / 100 + y' / 400.

Definition days_before_month (y m : Z) : Z :=
  nth (Z.to_nat m) [0; 0; 31; 59; 90; 120; 151; 181; 212; 243; 273; 304; 334] 0
  + (if (2 <? m) && is_leap y then 1 else 0).

Definition ymd2ord (y m d : Z) : Z :=
  days_before_year y + days_before_month y m + d.

(** Microseconds of the wall clock since the start of day 0. *)
Definition wall_us (w : wallclock) : Z :=
  (((ymd2ord (year w) (month w) (day w) * 24 + hour w) * 60 + minute w) * 60
   + second w) * 1000000 + microsecond w.

(** The instant of an aware datetime, on the UTC time line. *)
Definition instant (w : wallclock) (offset : Z) : Z := wall_us w - offset.

(** [a <= b], [a < b] on datetimes: two aware values compare by instant, two
    naive ones by their fields, a naive and an aware one raise [TypeError]. *)
Definition dt_compare (a b : datetime) : result comparison :=
  match tzinfo a, tzinfo b with
  | Some oa, Some ob => Ok (instant (wall a) oa ?= instant (wall b) ob)
  | None, None => Ok (wall_us (wall a) ?= wall_us (wall b))
  | _, _ => Raise TypeError
  end.

Definition is_le (c : comparison) : bool :=
  match c with Gt => false | _ => true end.
Definition is_lt (c : comparison) : bool :=
  match c with Lt => true | _ => false end.

Definition dt_le (a b : datetime) : result bool := is_le <$> dt_compare a b.
Definition dt_lt (a b : datetime) : result bool := is_lt <$> dt_compare a b.
Definition dt_gt (a b : datetime) : result bool := dt_lt b a.

(** [a == b] on datetimes never raises: a naive and an aware value are
    unequal. *)
Definition dt_eqb (a b : datetime) : bool :=
  match dt_compare a b with
  | Ok Eq => true
  | _ => false
  end.

(** ** Python values

    The values a reminder dict can hold: what [json.load] produces for a
    scalar ([None], [bool], numbers, [str]) and [datetime] objects.  Numbers
    (Python [int] and [float]) are exact rationals; JSON arrays and objects
    nested inside a reminder are not represented. *)

Inductive value :=
| VNone
| VBool (b : bool)
| VNum (q : Qc)
| VStr (s : string)
| VDatetime (d : datetime).

#[global] Instance value_eq_dec : EqDecision value.
Proof. solve_decision. Defined.

Definition num_of_bool (b : bool) : Qc := if b then 1%Qc else 0%Qc.

(** [a == b]: [bool] is a subclass of [int], so [True == 1]. *)
Definition py_eq (a b : value) : bool :=
  match a, b with
  | VNone, VNone => true
  | VBool x, VBool y => bool_decide (x = y)
  | VBool x, VNum y => bool_decide (num_of_bool x = y)
  | VNum x, VBool y => bool_decide (x = num_of_bool y)
  | VNum x, VNum y => bool_decide (x = y)
  | VStr x, VStr y => bool_decide (x = y)
  | VDatetime x, VDatetime y => dt_eqb x y
  | _, _ => false
  end.

(** [a < b], as [list.sort] applies it to two keys. *)
Definition py_lt (a b : value) : result bool :=
  match a, b with
  | VDatetime x, VDatetime y => dt_lt x y
  | VBool x, VBool y => Ok (bool_decide (num_of_bool x < num_of_bool y)%Qc)
  | VBool x, VNum y => Ok (bool_decide (num_of_bool x < y)%Qc)
  | VNum x, VBool y => Ok (bool_decide (x < num_of_bool y)%Qc)
  | VNum x, VNum y => Ok (bool_decide (x < y)%Qc)
  | VStr x, VStr y => Ok (String.ltb x y)
  | _, _ => Raise TypeError
  end.

(** Truth value of an object, as [not x] and [x or y] take it. *)
Definition truthy (v : value) : bool :=
  match v with
  | VNone => false
  | VBool b => b
  | VNum q => negb (bool_decide (q = 0%Qc))
  | VStr s => negb (bool_decide (s = EmptyString))
  | VDatetime _ => true
  end.

Definition is_datetime (v : option value) : bool :=
  match v with
  | Some (VDatetime _) => true
  | _ => false
  end.

(** ** Dict operations *)

Abbreviation reminder := (gmap string value).

(** [r[k]] *)
Definition getitem (r : reminder) (k : string) : result value :=
  match r !! k with
  | Some v => Ok v
  | None => Raise (KeyError k)
  end.

(** [r.get(k, d)] *)
Definition get (r : reminder) (k : string) (d : value) : value :=
  default d (r !! k).

(** [r.setdefault(k, d)] *)
Definition setdefault (k : string) (d : value) (r : reminder) : reminder :=
  match r !! k with
  | Some _ => r
  | None => <[k := d]> r
  end.

(** ** Formatting

    [digits k n] is [n] written with exactly [k] decimal digits, most
    significant first (["%02d"], ["%04d"], ["%06d"] for [n] in range). *)

Definition digit (d : Z) : ascii := ascii_of_nat (48 + Z.to_nat d).

Fixpoint digits (k : nat) (n : Z) : list ascii :=
  match k with
  | O => []
  | S k' => digit (n / 10 ^ Z.of_nat k') :: digits k' (n mod 10 ^ Z.of_nat k')
  end.

Definition chars (s : string) : list ascii := list_ascii_of_string s.

(** [reminder_time.strftime('%H:%M')] *)
Definition strftime_HM (d : datetime) : string :=
  string_of_list_ascii
    (digits 2 (hour (wall d)) ++ chars ":" ++ digits 2 (minute (wall d))).

(** [_format_offset] of CPython's [datetime]: [+HH:MM], then [:SS] when the
    offset has seconds, then [.ffffff] when it has microseconds. *)
Definition format_offset (o : Z) : list ascii :=
  let a := Z.abs o in
  let hh := a / 3600000000 in
  let mm := (a mod 3600000000) / 60000000 in
  let ss := (a mod 60000000) / 1000000 in
  let us := a mod 1000000 in
  chars (if o <? 0 then "-" else "+") ++ digits 2 hh ++ chars ":" ++ digits 2 mm
  ++ (if (ss =? 0) && (us =? 0) then []
      else chars ":" ++ digits 2 ss
           ++ (if us =? 0 then [] else chars "." ++ digits 6 us)).

(** [d.isoformat()]: [YYYY-MM-DDTHH:MM:SS], [.ffffff] when the microsecond
    is not zero, and the UTC offset of an aware value. *)
Definition isoformat_chars (d : datetime) : list ascii :=
  let w := wall d in
  digits 4 (year w) ++ chars "-" ++ digits 2 (month w) ++ chars "-"
  ++ digits 2 (day w) ++ chars "T" ++ digits 2 (hour w) ++ chars ":"
  ++ digits 2 (minute w) ++ chars ":" ++ digits 2 (second w)
  ++ (if microsecond w =? 0 then [] else chars "." ++ digits 6 (microsecond w))
  ++ match tzinfo d with
     | Some o => format_offset o
     | None => []
     end.

Definition isoformat (d : datetime) : string :=
  string_of_list_ascii (isoformat_chars d).

(** ** Reading an ISO string back

    [datetime.fromisoformat] accepts more or fewer strings from one Python
    version to the next; all of them accept what [isoformat] writes.
    [fromisoformat_canonical] accepts exactly that format,
    [YYYY-MM-DDTHH:MM:SS[.ffffff][+HH:MM[:SS[.ffffff]]]], and stands for the
    library function wherever a concrete one is needed. *)

Definition digit_val (c : ascii) : option Z :=
  let n := Z.of_nat (nat_of_ascii c) in
  if (48 <=? n) && (n <=? 57) then Some (n - 48) else None.

Fixpoint read_digits (k : nat) (acc : Z) (s : list ascii)
  : option (Z * list ascii) :=
  match k, s with
  | O, _ => Some (acc, s)
  | S k', c :: s' => d ← digit_val c; read_digits k' (10 * acc + d) s'
  | S _, [] => None
  end.

Definition expect (c : ascii) (s : list ascii) : option (list ascii) :=
  match s with
  | c' :: s' => if decide (c' = c) then Some s' else None
  | [] => None
  end.

Definition read_fraction (s : list ascii) : option (Z * list ascii) :=
  match s with
  | c :: s' => if decide (c = "."%char) then read_digits 6 0 s' else Some (0, s)
  | [] => Some (0, s)
  end.

Definition read_sign (c : ascii) : option Z :=
  if decide (c = "+"%char) then Some 1
  else if decide (c = "-"%char) then Some (-1)
  else None.

Definition read_offset_seconds (s : list ascii) : option (Z * Z) :=
  match s with
  | [] => Some (0, 0)
  | _ =>
      s ← expect ":" s;
      '(ss, s) ← read_digits 2 0 s;
      '(us, s) ← read_fraction s;
      match s with
      | [] => Some (ss, us)
      | _ => None
      end
  end.

Definition read_offset (s : list ascii) : option (option Z) :=
  match s with
  | [] => Some None
  | c :: s =>
      sign ← read_sign c;
      '(hh, s) ← read_digits 2 0 s;
      s ← expect ":" s;
      '(mm, s) ← read_digits 2 0 s;
      '(ss, us) ← read_offset_seconds s;
      Some (Some (sign * (((hh * 60 + mm) * 60 + ss) * 1000000 + us)))
  end.

Definition fromisoformat_canonical (str : string) : option datetime :=
  '(y, s) ← read_digits 4 0 (chars str);
  s ← expect "-" s;
  '(m, s) ← read_digits 2 0 s;
  s ← expect "-" s;
  '(d, s) ← read_digits 2 0 s;
  s ← expect "T" s;
  '(h, s) ← read_digits 2 0 s;
  s ← expect ":" s;
  '(mi, s) ← read_digits 2 0 s;
  s ← expect ":" s;
  '(sec, s) ← read_digits 2 0 s;
  '(us, s) ← read_fraction s;
  tz ← read_offset s;
  let dt := Datetime (Wallclock y m d h mi sec us) tz in
  if valid_datetime dt then Some dt else None.

(** ** Sorting the store

    [rs.sort(key=lambda r: r['dateTime'])]: the keys of all elements are
    computed first ([KeyError] when one is missing), then the list is sorted
    stably, comparing keys by [<]. *)

Fixpoint insert_keyed (k : value) (r : reminder) (l : list (value * reminder))
  : result (list (value * reminder)) :=
  match l with
  | [] => Ok [(k, r)]
  | (k', r') :: l' =>
      lt ← py_lt k' k;
      if lt : bool then cons (k', r') <$> insert_keyed k r l'
      else Ok ((k, r) :: l)
  end.

Fixpoint sort_keyed (l : list (value * reminder))
  : result (list (value * reminder)) :=
  match l with
  | [] => Ok []
  | (k, r) :: l' => s ← sort_keyed l'; insert_keyed k r s
  end.

Fixpoint with_keys (rs : list reminder) : result (list (value * reminder)) :=
  match rs with
  | [] => Ok []
  | r :: rs' =>
      k ← getitem r "dateTime";
      l ← with_keys rs';
      Ok ((k, r) :: l)
  end.

Definition sort_reminders (rs : list reminder) : result (list reminder) :=
  l ← with_keys rs;
  s ← sort_keyed l;
  Ok (s.*2).

(** ** The settings file, dialogs and due-events *)

(** An element of the JSON array of the file: an object, or anything else
    (on which [item['dateTime']] raises [TypeError]). *)
Inductive item :=
| Obj (fields : reminder)
| NotObj.

(** What [open(SETTINGS_FILE)] and [json.load] find. *)
Inductive file :=
| NoFile                        (* FileNotFoundError *)
| NotJson                       (* json.JSONDecodeError *)
| JsonScalar                    (* a number, true, false or null: not iterable *)
| JsonItems (items : list item) (* an array; an object or a string iterates
                                   over elements that are not objects *).

(** The message boxes the operations open.  The subject of the delete
    question is the text of the reminder found, or nothing for the words
    "this reminder". *)
Inductive dialog :=
| Warning (title message : string)
| Critical (title message : string)
| Question (title : string) (subject : option value).

(** [reminder_due_signal.emit(title, message)]; the signal is declared
    [pyqtSignal(str, str)]. *)
Definition due_event : Type := string * string.

Record ReminderApp := App {
  reminders : list reminder;
  settings_file : file
}.

Definition is_json (v : value) : Prop :=
  match v with
  | VDatetime _ => False
  | _ => True
  end.

#[global] Instance is_json_dec v : Decision (is_json v).
Proof. destruct v; simpl; apply _. Defined.

(** [json.dump] accepts a dict when all its values are JSON values. *)
Definition serialisable (r : reminder) : Prop :=
  map_Forall (fun _ v => is_json v) r.

(** The objects of a JSON file hold JSON values. *)
Definition json_item (it : item) : Prop :=
  match it with
  | Obj m => serialisable m
  | NotObj => True
  end.

Definition json_file (f : file) : Prop :=
  match f with
  | JsonItems items => Forall json_item items
  | _ => True
  end.

Section App.

(** The two library functions whose result depends on the platform or on the
    Python version: the UTC offset the local time zone gives to a wall-clock
    time, and the set of strings [datetime.fromisoformat] accepts ([None]
    stands for its [ValueError]). *)
Variable local_utcoffset : wallclock -> Z.
Variable fromisoformat : string -> option datetime.

(** [naive.astimezone()]: the same fields, with the local offset attached. *)
Definition astimezone (w : wallclock) : datetime :=
  Datetime w (Some (local_utcoffset w)).

(** [if dt.tzinfo is None: dt = dt.astimezone()] *)
Definition ensure_aware (d : datetime) : datetime :=
  match tzinfo d with
  | None => astimezone (wall d)
  | Some _ => d
  end.

(** *** [ReminderApp.update_list]

    Only what can raise is embedded; the rows of the list widget are not. *)
Definition update_item (r : reminder) : result () :=
  dt ← getitem r "dateTime";
  match dt with
  | VDatetime _ =>
      _ ← getitem r "text";
      _ ← getitem r "id";
      Ok ()
  | _ => Ok ()
  end.

Fixpoint update_list (rs : list reminder) : result () :=
  match rs with
  | [] => Ok ()
  | r :: rs' => _ ← update_item r; update_list rs'
  end.

(** *** [ReminderApp.save_reminders] *)
Definition save_entry (r : reminder) : option reminder :=
  match r !! "dateTime" with
  | Some (VDatetime d) => Some (<["dateTime" := VStr (isoformat d)]> r)
  | _ => None
  end.

Definition reminders_to_save (rs : list reminder) : list reminder :=
  omap save_entry rs.

(** [json.dump(reminders_to_save, f, indent=4)] into the file just truncated
    by [open(..., 'w')]: the encoder writes chunk by chunk, so a value it
    cannot encode leaves a file that is not JSON. *)
Definition json_dump (l : list reminder) : result file :=
  if bool_decide (Forall serialisable l) then Ok (JsonItems (Obj <$> l))
  else Raise TypeError.

Definition save_reminders (st : ReminderApp) : ReminderApp * list dialog :=
  match json_dump (reminders_to_save (reminders st)) with
  | Ok f => (App (reminders st) f, [])
  | Raise _ =>
      (App (reminders st) NotJson,
       [Warning "Save Error" "Could not save reminders"])
  end.

(** *** [ReminderApp.load_reminders] *)
Definition load_item (it : item) : result reminder :=
  match it with
  | NotObj => Raise TypeError
  | Obj m =>
      s ← getitem m "dateTime";
      match s with
      | VStr s =>
          match fromisoformat s with
          | Some dt_obj =>
              Ok (setdefault "notified" (VBool false)
                    (<["dateTime" := VDatetime (ensure_aware dt_obj)]> m))
          | None => Raise ValueError
          end
      | _ => Raise TypeError
      end
  end.

(** The [for] loop of [load_reminders]: an item whose conversion raises is
    skipped. *)
Fixpoint load_items (items : list item) : list reminder :=
  match items with
  | [] => []
  | it :: items' =>
      match load_item it with
      | Ok r => r :: load_items items'
      | Raise _ => load_items items'
      end
  end.

Definition load_reminders (f : file) : result ReminderApp :=
  let rs :=
    match f with
    | JsonItems items => try_except (sort_reminders (load_items items)) []
    | NoFile | NotJson | JsonScalar => []
    end in
  _ ← update_list rs;
  Ok (App rs f).

(** *** [ReminderApp.add_reminder]

    [text] is [self.text_input.text().strip()], [q_datetime] is
    [self.datetime_input.dateTime().toPyDateTime()], [now] and [stamp] are the
    two readings of the clock: [datetime.now()] and
    [datetime.now().timestamp()]. *)
Definition new_reminder (stamp : Qc) (text : string) (due : datetime) : reminder :=
  {[ "id" := VNum stamp; "text" := VStr text;
     "dateTime" := VDatetime due; "notified" := VBool false ]}.

Definition add_reminder (text : string) (q_datetime now : wallclock) (stamp : Qc)
    (st : ReminderApp) : result (ReminderApp * list dialog) :=
  if bool_decide (text = "") then
    Ok (st, [Warning "Input Error" "Reminder text cannot be empty."])
  else
    let reminder_datetime := astimezone q_datetime in
    let now_aware := astimezone now in
    past ← dt_le reminder_datetime now_aware;
    if past : bool then
      Ok (st, [Warning "Input Error" "Please select a future date and time."])
    else
      rs ← sort_reminders
             (reminders st ++ [new_reminder stamp text reminder_datetime]);
      _ ← update_list rs;
      Ok (save_reminders (App rs (settings_file st))).

(** *** [ReminderApp.delete_reminder]

    [selected] is the id held by the selected row ([None]: no row selected),
    [confirm] the answer to the question. *)
Fixpoint find_text (reminder_id : value) (rs : list reminder)
  : result (option value) :=
  match rs with
  | [] => Ok None
  | r :: rs' =>
      i ← getitem r "id";
      if py_eq i reminder_id then Some <$> getitem r "text"
      else find_text reminder_id rs'
  end.

Fixpoint remove_id (reminder_id : value) (rs : list reminder)
  : result (list reminder) :=
  match rs with
  | [] => Ok []
  | r :: rs' =>
      i ← getitem r "id";
      rest ← remove_id reminder_id rs';
      Ok (if py_eq i reminder_id then rest else r :: rest)
  end.

Definition delete_reminder (selected : option value) (confirm : bool)
    (st : ReminderApp) : result (ReminderApp * list dialog) :=
  match selected with
  | None =>
      Ok (st, [Warning "Selection Error" "Please select a reminder to delete."])
  | Some reminder_id =>
      reminder_text ← find_text reminder_id (reminders st);
      let asked := Question "Confirm Delete" reminder_text in
      if confirm then
        rs ← remove_id reminder_id (reminders st);
        _ ← update_list rs;
        let '(st', shown) := save_reminders (App rs (settings_file st)) in
        Ok (st', asked :: shown)
      else Ok (st, [asked])
  end.

(** *** [ReminderApp.edit_reminder_dialog]

    [reminder_id] is the id held by the row double-clicked; [reply] is
    [None] when the dialog is cancelled and otherwise what
    [EditReminderDialog.get_data] reads: the stripped text and
    [dateTime().toPyDateTime()]; [now] is the clock read after the dialog
    has closed. *)
Fixpoint find_reminder (reminder_id : value) (rs : list reminder)
  : result (option (nat * reminder)) :=
  match rs with
  | [] => Ok None
  | r :: rs' =>
      i ← getitem r "id";
      if py_eq i reminder_id then Ok (Some (O, r))
      else fmap (M := option) (prod_map S id) <$> find_reminder reminder_id rs'
  end.

Definition edited_reminder (r : reminder) (new_text : string)
    (new_datetime : datetime) (reset : bool) : reminder :=
  let r1 := <["dateTime" := VDatetime new_datetime]> (<["text" := VStr new_text]> r) in
  if reset then <["notified" := VBool false]> r1 else r1.

Definition edit_reminder_dialog (reminder_id : value)
    (reply : option (string * wallclock)) (now : wallclock) (st : ReminderApp)
  : result (ReminderApp * list dialog) :=
  found ← find_reminder reminder_id (reminders st);
  match found with
  | None => Ok (st, [Critical "Error" "Could not find reminder data to edit."])
  | Some (i, reminder_to_edit) =>
      if bool_decide (reminder_to_edit = ∅) then
        Ok (st, [Critical "Error" "Could not find reminder data to edit."])
      else
        original ← getitem reminder_to_edit "dateTime";
        match original, reply with
        | VDatetime _, None => Ok (st, [])
        | VDatetime original_time, Some (new_text, edited) =>
            let new_datetime := astimezone edited in
            let now_aware := astimezone now in
            if bool_decide (new_text = "") then
              Ok (st, [Warning "Input Error" "Reminder text cannot be empty."])
            else
              past ← dt_le new_datetime now_aware;
              if past : bool then
                Ok (st, [Warning "Input Error"
                           "Cannot set reminder time to the past or present."])
              else
                future ← dt_gt new_datetime now_aware;
                reset ←
                  (if future : bool then
                     if truthy (get reminder_to_edit "notified" (VBool false))
                     then Ok true
                     else dt_le original_time now_aware
                   else Ok false);
                rs ← sort_reminders
                       (<[i := edited_reminder reminder_to_edit new_text
                                 new_datetime reset]> (reminders st));
                _ ← update_list rs;
                Ok (save_reminders (App rs (settings_file st)))
        | _, _ =>
            Ok (st, [Critical "Error"
                       "Invalid date data for the selected reminder."])
        end
  end.

(** *** [ReminderCheckerThread.run]

    The body of the [for] loop, for one reminder and the [now_aware] of the
    current wake. *)
Definition check_reminder (now_aware : datetime) (r : reminder)
  : result (reminder * list due_event) :=
  match r !! "dateTime" with
  | Some (VDatetime d) =>
      let reminder_time := ensure_aware d in
      due ← (if truthy (get r "notified" (VBool false)) then Ok false
             else dt_le reminder_time now_aware);
      if due : bool then
        text ← getitem r "text";
        match text with
        | VStr title =>
            Ok (<["notified" := VBool true]> r,
                [(title, "Reminder set for " +:+ strftime_HM reminder_time)])
        | _ => Raise TypeError
        end
      else Ok (r, [])
  | _ => Ok (r, [])
  end.

(** One wake: [now_aware] is taken once, then every reminder is checked in
    store order. *)
Fixpoint scan_from (now_aware : datetime) (rs : list reminder)
  : result (list reminder * list due_event) :=
  match rs with
  | [] => Ok ([], [])
  | r :: rs' =>
      '(r', e) ← check_reminder now_aware r;
      '(rs'', es) ← scan_from now_aware rs';
      Ok (r' :: rs'', e ++ es)
  end.

Definition scan (now : wallclock) (rs : list reminder)
  : result (list reminder * list due_event) :=
  scan_from (astimezone now) rs.

(** The [while self.running] loop.  Each time the loop tests its condition the
    thread either finds [running] cleared by [stop()] or reads the clock and
    scans. *)
Inductive tick :=
| Stopped
| Wake (now : wallclock).

Inductive thread :=
| Sleeping (rs : list reminder) (emitted : list due_event)
| Exited (rs : list reminder) (emitted : list due_event)
| Died (e : exn).

Fixpoint run (ticks : list tick) (rs : list reminder) (emitted : list due_event)
  : thread :=
  match ticks with
  | [] => Sleeping rs emitted
  | Stopped :: _ => Exited rs emitted
  | Wake now :: ticks' =>
      match scan now rs with
      | Ok (rs', es) => run ticks' rs' (emitted ++ es)
      | Raise e => Died e
      end
  end.

(** *** The application as a transition system *)
Inductive action :=
| Add (text : string) (q_datetime now : wallclock) (stamp : Qc)
| Edit (reminder_id : value) (reply : option (string * wallclock)) (now : wallclock)
| Delete (selected : option value) (confirm : bool)
| Poll (now : wallclock).

Definition step (st : ReminderApp) (a : action) : result ReminderApp :=
  match a with
  | Add text q now stamp => fst <$> add_reminder text q now stamp st
  | Edit i reply now => fst <$> edit_reminder_dialog i reply now st
  | Delete sel confirm => fst <$> delete_reminder sel confirm st
  | Poll now =>
      '(rs, _) ← scan now (reminders st);
      Ok (App rs (settings_file st))
  end.

(** [steps ok st st']: the application gets from [st] to [st'] by actions
    that each satisfy [ok] in the state they are taken in. *)
Inductive steps (ok : ReminderApp -> action -> Prop) : ReminderApp -> ReminderApp -> Prop :=
| steps_refl st : steps ok st st
| steps_step st st' st'' a :
    steps ok st st' -> ok st' a -> step st' a = Ok st'' -> steps ok st st''.

(** The states of a session: [__init__] loads the file, then the user and the
    checker thread act. *)
Definition reachable (st : ReminderApp) : Prop :=
  exists f st0,
    json_file f /\ load_reminders f = Ok st0 /\ steps (fun _ _ => True) st0 st.

(** *** The due-check in the words of the specification *)

(** The instant of an aware datetime. *)
Definition instant_of (d : datetime) : Z := instant (wall d) (default 0 (tzinfo d)).

Definition notified (r : reminder) : bool := truthy (get r "notified" (VBool false)).

(** [notified == false] and [due_at <= now]. *)
Definition is_due (now : wallclock) (r : reminder) : bool :=
  match r !! "dateTime" with
  | Some (VDatetime d) =>
      negb (notified r)
      && bool_decide (instant_of (ensure_aware d) <= instant_of (astimezone now))
  | _ => false
  end.

(** The due-event of a reminder: its text and its formatted due time. *)
Definition event_of (r : reminder) : due_event :=
  (match r !! "text" with Some (VStr t) => t | _ => "" end,
   "Reminder set for " +:+
   match r !! "dateTime" with
   | Some (VDatetime d) => strftime_HM (ensure_aware d)
   | _ => ""
   end).

Definition mark_notified (r : reminder) : reminder := <["notified" := VBool true]> r.

Definition has_title (r : reminder) : Prop := exists t, r !! "text" = Some (VStr t).

(** What one wake makes of a reminder: marked when it is due, left as it is
    otherwise. *)
Definition checked (now : wallclock) (r : reminder) : reminder :=
  if is_due now r then mark_notified r else r.

End App.

(** ** The vocabulary of the specification *)

(** [due_at] of a reminder: the instant of its [dateTime], when that is an
    aware datetime. *)
Definition aware_key (k : value) : option Z :=
  match k with
  | VDatetime (Datetime w (Some o)) => Some (instant w o)
  | _ => None
  end.

Definition due_at (r : reminder) : option Z := r !! "dateTime" ≫= aware_key.

Definition due_le (a b : reminder) : Prop :=
  match due_at a, due_at b with
  | Some i, Some j => i <= j
  | _, _ => False
  end.

(** A reminder paired with its sort key, and the order on such pairs. *)
Definition keyed (r : reminder) : value * reminder :=
  (default VNone (r !! "dateTime"), r).

Definition key_aware (p : value * reminder) : Prop := is_Some (aware_key p.1).

Definition key_le (p q : value * reminder) : Prop :=
  match aware_key p.1, aware_key q.1 with
  | Some i, Some j => i <= j
  | _, _ => False
  end.

Definition due_lt (a b : reminder) : Prop :=
  match due_at a, due_at b with
  | Some i, Some j => i < j
  | _, _ => False
  end.

Definition key_lt (p q : value * reminder) : Prop :=
  match aware_key p.1, aware_key q.1 with
  | Some i, Some j => i < j
  | _, _ => False
  end.

(** The store is in ascending order of [due_at]. *)
Definition ascending (rs : list reminder) : Prop := StronglySorted due_le rs.

(** Two reminders have the same id, in the sense of [==]. *)
Definition same_id (a b : reminder) : Prop :=
  match a !! "id", b !! "id" with
  | Some x, Some y => py_eq x y = true
  | _, _ => False
  end.

(** The ids of the store are pairwise distinct. *)
Fixpoint ids_distinct (rs : list reminder) : Prop :=
  match rs with
  | [] => True
  | r :: rs' => Forall (fun r' => ~ same_id r r') rs' /\ ids_distinct rs'
  end.

(** No reminder of the store has the id [v]. *)
Definition id_absent (v : value) (rs : list reminder) : Prop :=
  Forall (fun r => match r !! "id" with
                   | Some x => py_eq x v = false
                   | None => True
                   end) rs.

(** What every record of a running application has: an aware [dateTime],
    the keys the list widget reads, a [notified] key, and JSON values
    everywhere else. *)
Definition storable (r : reminder) : Prop := serialisable (delete "dateTime" r).

Definition kept (r : reminder) : Prop :=
  is_Some (due_at r) /\ is_Some (r !! "text") /\ is_Some (r !! "id")
  /\ is_Some (r !! "notified") /\ storable r.

Definition well_kept (rs : list reminder) : Prop :=
  Forall kept rs /\ ascending rs.

(** The [dateTime] of the record is a datetime within the ranges of the
    [datetime] type. *)
Definition valid_due (r : reminder) : Prop :=
  match r !! "dateTime" with
  | Some (VDatetime d) => valid_datetime d = true
  | _ => False
  end.

(** The record as [save_reminders] writes it, and the test it applies:
    only a record whose [dateTime] is a datetime is written. *)
Definition persisted (r : reminder) : reminder :=
  match r !! "dateTime" with
  | Some (VDatetime d) => <["dateTime" := VStr (isoformat d)]> r
  | _ => r
  end.

Definition has_datetime (r : reminder) : bool := is_datetime (r !! "dateTime").

(** The test of the list comprehension of [delete_reminder]:
    [r['id'] != reminder_id]. *)
Definition other_id (reminder_id : value) (r : reminder) : bool :=
  match r !! "id" with
  | Some x => negb (py_eq x reminder_id)
  | None => true
  end.

(** A record the checker thread can announce: when its [dateTime] is a
    datetime, its text is a string. *)
Definition titled (r : reminder) : Prop := has_datetime r = true -> has_title r.

Section Overdue.
Variable local_utcoffset : wallclock -> Z.

(** [due_at <= now] for the record as it stands. *)
Definition overdue (now : wallclock) (r : reminder) : bool :=
  match due_at r with
  | Some i => bool_decide (i <= instant_of (astimezone local_utcoffset now))
  | None => false
  end.
End Overdue.

(** *** The rows of the list widget

    [update_list] once more, now with what it puts in [self.reminder_list]:
    for every reminder whose [dateTime] is a datetime one row, holding the
    text and the due time it displays, the id it stores under [UserRole], and
    the suffix it appends ("(Notified)" in gray, "(Past Due)" in red, or
    nothing).  [now] is the clock [update_list] reads. *)
Inductive row_status := Plain | NotifiedRow | PastDueRow.

Record row := Row {
  row_text : value;
  row_due : datetime;
  row_status_of : row_status;
  row_id : value
}.

Section Rows.
Variable local_utcoffset : wallclock -> Z.

Definition list_row (now_aware : datetime) (r : reminder) : result (option row) :=
  dt ← getitem r "dateTime";
  match dt with
  | VDatetime d =>
      let dt_obj := ensure_aware local_utcoffset d in
      text ← getitem r "text";
      i ← getitem r "id";
      status ←
        (if truthy (get r "notified" (VBool false)) then Ok NotifiedRow
         else
           past ← dt_le dt_obj now_aware;
           Ok (if past : bool then PastDueRow else Plain));
      Ok (Some (Row text dt_obj status i))
  | _ => Ok None
  end.

Fixpoint list_rows_from (now_aware : datetime) (rs : list reminder)
  : result (list row) :=
  match rs with
  | [] => Ok []
  | r :: rs' =>
      item ← list_row now_aware r;
      rows ← list_rows_from now_aware rs';
      Ok (match item with
          | Some x => x :: rows
          | None => rows
          end)
  end.

Definition list_rows (now : wallclock) (rs : list reminder) : result (list row) :=
  list_rows_from (astimezone local_utcoffset now) rs.
(** The row that shows the reminder [r]. *)
Definition row_of (now : wallclock) (r : reminder) (x : row) : Prop :=
  r !! "id" = Some (row_id x)
  /\ r !! "text" = Some (row_text x)
  /\ r !! "dateTime" = Some (VDatetime (row_due x))
  /\ row_status_of x
     = (if notified r then NotifiedRow
        else if overdue local_utcoffset now r then PastDueRow else Plain).
End Rows.

(** The file holds what [save_reminders] writes for the store. *)
Definition in_sync (st : ReminderApp) : Prop := save_reminders st = (st, []).

#[global] Instance json_item_dec it : Decision (json_item it).
Proof. destruct it; simpl; apply _. Defined.

#[global] Instance json_file_dec f : Decision (json_file f).
Proof. destruct f; simpl; apply _. Defined.

#[global] Instance has_title_dec r : Decision (has_title r).
Proof.
  unfold has_title. destruct (r !! "text") as [[| | | t |] |].
  all: try (right; intros [t' ?]; congruence).
  left. by exists t.
Defined.

#[global] Instance titled_dec r : Decision (titled r).
Proof. unfold titled. apply _. Defined.

(** A message box that reports an error. *)
Definition is_error (d : dialog) : bool :=
  match d with
  | Warning _ _ | Critical _ _ => true
  | Question _ _ => false
  end.

(** An action whose [Add] takes a timestamp that is the id of no reminder of
    the store. *)
Definition fresh_stamp (st : ReminderApp) (a : action) : Prop :=
  match a with
  | Add _ _ _ stamp => id_absent (VNum stamp) (reminders st)
  | _ => True
  end.

#[global] Instance due_le_dec : RelDecision due_le.
Proof. intros a b. unfold due_le. destruct (due_at a), (due_at b); apply _. Defined.

#[global] Instance ascending_dec rs : Decision (ascending rs).
Proof. unfold ascending. apply _. Defined.

#[global] Instance same_id_dec : RelDecision same_id.
Proof. intros a b. unfold same_id. destruct (a !! "id"), (b !! "id"); apply _. Defined.

#[global] Instance ids_distinct_dec rs : Decision (ids_distinct rs).
Proof. induction rs; simpl; apply _. Defined.

#[global] Instance id_absent_dec v rs : Decision (id_absent v rs).
Proof.
  unfold id_absent. apply Forall_dec. intros r. destruct (r !! "id"); apply _.
Defined.

#[global] Instance serialisable_dec r : Decision (serialisable r).
Proof. unfold serialisable. apply _. Defined.

#[global] Instance kept_dec r : Decision (kept r).
Proof. unfold kept, storable. apply _. Defined.

#[global] Instance well_kept_dec rs : Decision (well_kept rs).
Proof. unfold well_kept. apply _. Defined.

#[global] Instance valid_due_dec r : Decision (valid_due r).
Proof.
  unfold valid_due. destruct (r !! "dateTime") as [[] |]; apply _.
Defined.

(** ** A sample session

    A machine two hours east of UTC, a settings file with two reminders, and
    the files used to show where the code departs from its specification. *)

Definition cest (_ : wallclock) : Z := 7200000000.

Definition num (z : Z) : Qc := Q2Qc (inject_Z z).

Definition at_cest (w : wallclock) : datetime := Datetime w (Some 7200000000).

Definition tea : reminder :=
  {[ "id" := VNum (num 1); "text" := VStr "tea";
     "dateTime" := VDatetime (at_cest (Wallclock 2024 6 1 10 0 0 0));
     "notified" := VBool false ]}.

Definition call : reminder :=
  {[ "id" := VNum (num 2); "text" := VStr "call";
     "dateTime" := VDatetime (at_cest (Wallclock 2024 6 2 10 0 0 0));
     "notified" := VBool false ]}.

Definition demo_store : list reminder := [tea; call].

(** The file lists the later reminder first and leaves [notified] out of
    the earlier one. *)
Definition demo_file : file :=
  JsonItems
    [Obj {[ "id" := VNum (num 2); "text" := VStr "call";
            "dateTime" := VStr "2024-06-02T10:00:00+02:00";
            "notified" := VBool false ]};
     Obj {[ "id" := VNum (num 1); "text" := VStr "tea";
            "dateTime" := VStr "2024-06-01T10:00:00+02:00" ]}].

Definition demo : ReminderApp := App demo_store demo_file.

(** Local noon of 1 June 2024: [tea] is due, [call] is not. *)
Definition noon : wallclock := Wallclock 2024 6 1 12 0 0 0.
Definition evening : wallclock := Wallclock 2024 6 1 18 0 0 0.

(** A file whose one reminder has the number 5 for a text. *)
Definition untitled_file : file :=
  JsonItems
    [Obj {[ "id" := VNum (num 1); "text" := VNum (num 5);
            "dateTime" := VStr "2024-06-01T10:00:00+02:00" ]}].

Definition untitled : reminder :=
  {[ "id" := VNum (num 1); "text" := VNum (num 5);
     "dateTime" := VDatetime (at_cest (Wallclock 2024 6 1 10 0 0 0));
     "notified" := VBool false ]}.

(** A file with the same id twice. *)
Definition twin_file : file :=
  JsonItems
    [Obj {[ "id" := VNum (num 1); "text" := VStr "tea";
            "dateTime" := VStr "2024-06-01T10:00:00+02:00" ]};
     Obj {[ "id" := VNum (num 1); "text" := VStr "call";
            "dateTime" := VStr "2024-06-02T10:00:00+02:00" ]}].

Definition twin_store : list reminder :=
  [tea; <["id" := VNum (num 1)]> call].

(** A store with a record whose [dateTime] is still the string of the file. *)
Definition stale : reminder :=
  {[ "id" := VNum (num 3); "text" := VStr "stale";
     "dateTime" := VStr "2024-06-03T10:00:00+02:00";
     "notified" := VBool false ]}.

(** The sample store once saved, once [tea] has been announced, and once a
    walk at six has been added; the rows [update_list] shows at noon. *)
Definition demo_saved : ReminderApp := (save_reminders demo).1.

Definition demo_announced : ReminderApp :=
  App [mark_notified tea; call] (settings_file demo_saved).

Definition walk : reminder := new_reminder (num 3) "walk" (at_cest evening).

Definition demo_walk : ReminderApp :=
  (save_reminders (App [tea; walk; call] demo_file)).1.

Definition demo_rows : list row :=
  [Row (VStr "tea") (at_cest (Wallclock 2024 6 1 10 0 0 0)) PastDueRow (VNum (num 1));
   Row (VStr "call") (at_cest (Wallclock 2024 6 2 10 0 0 0)) Plain (VNum (num 2))].

(** * Properties *)

(** ** [fromisoformat_canonical] inverts [isoformat] *)

Lemma digit_val_digit d : 0 <= d < 10 -> digit_val (digit d) = Some d.
Proof.
  intros Hd.
  assert (Hcases : d = 0 \/ d = 1 \/ d = 2 \/ d = 3 \/ d = 4 \/ d = 5 \/ d = 6
                   \/ d = 7 \/ d = 8 \/ d = 9) by lia.
  repeat (destruct Hcases as [-> | Hcases]; [reflexivity |]).
  by subst.
Qed.

Lemma read_digits_digits k n acc rest :
  0 <= n < 10 ^ Z.of_nat k ->
  read_digits k acc (digits k n ++ rest) = Some (acc * 10 ^ Z.of_nat k + n, rest).
Proof.
  revert n acc. induction k as [| k IH]; intros n acc Hn.
  - simpl in *. f_equal. f_equal. lia.
  - assert (Hpow : 10 ^ Z.of_nat (S k) = 10 * 10 ^ Z.of_nat k).
    { rewrite Nat2Z.inj_succ, Z.pow_succ_r; lia. }
    assert (Hpos : 0 < 10 ^ Z.of_nat k) by (apply Z.pow_pos_nonneg; lia).
    rewrite Hpow in *.
    cbn [digits read_digits app].
    rewrite digit_val_digit.
    2: { split; [apply Z.div_pos; lia | apply Z.div_lt_upper_bound; lia]. }
    cbn [mbind option_bind].
    rewrite IH by (apply Z.mod_pos_bound; lia).
    f_equal. f_equal.
    pose proof (Z.div_mod n (10 ^ Z.of_nat k)) as Hdm. lia.
Qed.

Lemma read_two n rest :
  0 <= n < 100 -> read_digits 2 0 (digits 2 n ++ rest) = Some (n, rest).
Proof. intros. by rewrite (read_digits_digits 2) by (simpl; lia). Qed.

Lemma read_four n rest :
  0 <= n < 10000 -> read_digits 4 0 (digits 4 n ++ rest) = Some (n, rest).
Proof. intros. by rewrite (read_digits_digits 4) by (simpl; lia). Qed.

Lemma read_six n rest :
  0 <= n < 1000000 -> read_digits 6 0 (digits 6 n ++ rest) = Some (n, rest).
Proof. intros. by rewrite (read_digits_digits 6) by (simpl; lia). Qed.

Lemma expect_cons c s : expect c (c :: s) = Some s.
Proof. simpl. by destruct (decide (c = c)). Qed.

Lemma read_fraction_none rest :
  head rest <> Some "."%char -> read_fraction rest = Some (0, rest).
Proof.
  destruct rest as [| c rest]; [done |]. simpl. intros Hc.
  destruct (decide (c = "."%char)); [congruence | done].
Qed.

Lemma read_fraction_some us rest :
  0 <= us < 1000000 ->
  read_fraction (chars "." ++ digits 6 us ++ rest) = Some (us, rest).
Proof. intros Hus. cbn [chars list_ascii_of_string app read_fraction]. by apply read_six. Qed.

Lemma format_offset_head o : head (format_offset o) <> Some "."%char.
Proof. unfold format_offset. by destruct (o <? 0). Qed.

Lemma read_fraction_format us rest :
  0 <= us < 1000000 -> head rest <> Some "."%char ->
  read_fraction ((if us =? 0 then [] else chars "." ++ digits 6 us) ++ rest)
  = Some (us, rest).
Proof.
  intros Hus Hrest. destruct (Z.eqb_spec us 0) as [-> | _].
  - by apply read_fraction_none.
  - rewrite <- !app_assoc. by apply read_fraction_some.
Qed.

Lemma read_offset_seconds_format ss us :
  0 <= ss < 60 -> 0 <= us < 1000000 ->
  read_offset_seconds
    (if (ss =? 0) && (us =? 0) then []
     else chars ":" ++ digits 2 ss
          ++ (if us =? 0 then [] else chars "." ++ digits 6 us))
  = Some (ss, us).
Proof.
  intros Hss Hus.
  pose proof (read_fraction_format us [] Hus) as Hfrac.
  rewrite app_nil_r in Hfrac. cbn [chars list_ascii_of_string app] in Hfrac.
  destruct ((ss =? 0) && (us =? 0)) eqn:E.
  - apply andb_true_iff in E as [->%Z.eqb_eq ->%Z.eqb_eq]. reflexivity.
  - cbn [chars list_ascii_of_string app read_offset_seconds].
    rewrite expect_cons. cbn [mbind option_bind].
    rewrite read_two by lia. cbn [mbind option_bind].
    rewrite Hfrac by done. reflexivity.
Qed.

Lemma read_offset_format o :
  valid_offset o = true -> read_offset (format_offset o) = Some (Some o).
Proof.
  unfold valid_offset, day_us, format_offset. intros Ho.
  apply andb_true_iff in Ho as [Hlo Hhi].
  apply Z.ltb_lt in Hlo, Hhi.
  set (a := Z.abs o).
  assert (Ha : 0 <= a < 86400000000) by lia.
  assert (Hsign : (if o <? 0 then -1 else 1) * a = o).
  { destruct (Z.ltb_spec o 0); lia. }
  assert (Hparts : ((a / 3600000000 * 60 + a mod 3600000000 / 60000000) * 60
                    + a mod 60000000 / 1000000) * 1000000 + a mod 1000000 = a).
  { Z.to_euclidean_division_equations; lia. }
  assert (read_offset
            (chars (if o <? 0 then "-" else "+")
             ++ digits 2 (a / 3600000000) ++ chars ":"
             ++ digits 2 (a mod 3600000000 / 60000000)
             ++ (if (a mod 60000000 / 1000000 =? 0) && (a mod 1000000 =? 0)
                 then []
                 else chars ":" ++ digits 2 (a mod 60000000 / 1000000)
                      ++ (if a mod 1000000 =? 0 then []
                          else chars "." ++ digits 6 (a mod 1000000))))
          = Some (Some ((if o <? 0 then -1 else 1) * a))) as ->; [| by rewrite Hsign].
  generalize (if (a mod 60000000 / 1000000 =? 0) && (a mod 1000000 =? 0)
              then []
              else chars ":" ++ digits 2 (a mod 60000000 / 1000000)
                   ++ (if a mod 1000000 =? 0 then []
                       else chars "." ++ digits 6 (a mod 1000000)))
    (read_offset_seconds_format (a mod 60000000 / 1000000) (a mod 1000000)).
  intros tail Htail.
  assert (Hs : 0 <= a mod 60000000 / 1000000 < 60)
    by (Z.to_euclidean_division_equations; lia).
  assert (Hu : 0 <= a mod 1000000 < 1000000) by (apply Z.mod_pos_bound; lia).
  specialize (Htail Hs Hu).
  assert (Hh : 0 <= a / 3600000000 < 100)
    by (Z.to_euclidean_division_equations; lia).
  assert (Hm : 0 <= a mod 3600000000 / 60000000 < 100)
    by (Z.to_euclidean_division_equations; lia).
  assert (Hminus : read_sign "-" = Some (-1)) by reflexivity.
  assert (Hplus : read_sign "+" = Some 1) by reflexivity.
  destruct (o <? 0);
    cbn [chars list_ascii_of_string app read_offset];
    rewrite ?Hminus, ?Hplus; cbn [mbind option_bind];
    rewrite read_two by done; cbn [mbind option_bind];
    rewrite expect_cons; cbn [mbind option_bind];
    rewrite read_two by done; cbn [mbind option_bind];
    rewrite Htail; cbn [mbind option_bind]; by rewrite Hparts.
Qed.

Lemma days_in_month_le y m : days_in_month y m <= 31.
Proof.
  unfold days_in_month.
  destruct (m =? 2); [destruct (is_leap y); lia |].
  destruct ((m =? 4) || (m =? 6) || (m =? 9) || (m =? 11)); lia.
Qed.

Lemma valid_wallclock_bounds w :
  valid_wallclock w = true ->
  (0 <= year w < 10000) /\ (0 <= month w < 100) /\ (0 <= day w < 100) /\
  (0 <= hour w < 100) /\ (0 <= minute w < 100) /\ (0 <= second w < 100) /\
  (0 <= microsecond w < 1000000).
Proof.
  unfold valid_wallclock. rewrite !andb_true_iff.
  rewrite !Z.leb_le, !Z.ltb_lt.
  pose proof (days_in_month_le (year w) (month w)). lia.
Qed.

Lemma fromisoformat_isoformat d :
  valid_datetime d = true -> fromisoformat_canonical (isoformat d) = Some d.
Proof.
  intros Hvalid. pose proof Hvalid as Hd.
  unfold valid_datetime in Hd. apply andb_true_iff in Hd as [Hw Htz].
  apply valid_wallclock_bounds in Hw as (Hy & Hm & Hdd & Hh & Hmi & Hs & Hus).
  assert (Hoff : read_offset (match tzinfo d with
                              | Some o => format_offset o
                              | None => []
                              end) = Some (tzinfo d)).
  { destruct (tzinfo d); [by rewrite read_offset_format | done]. }
  assert (Hhead : head (match tzinfo d with
                        | Some o => format_offset o
                        | None => []
                        end) <> Some "."%char).
  { destruct (tzinfo d); [apply format_offset_head | done]. }
  unfold fromisoformat_canonical, isoformat, chars at 1.
  rewrite list_ascii_of_string_of_list_ascii. unfold isoformat_chars.
  destruct d as [[y m dd h mi sec us] tz]; cbn [wall tzinfo year month day hour
    minute second microsecond] in *.
  cbn [chars list_ascii_of_string app].
  rewrite read_four by done. cbn [mbind option_bind].
  rewrite expect_cons. cbn [mbind option_bind].
  rewrite read_two by done. cbn [mbind option_bind].
  rewrite expect_cons. cbn [mbind option_bind].
  rewrite read_two by done. cbn [mbind option_bind].
  rewrite expect_cons. cbn [mbind option_bind].
  rewrite read_two by done. cbn [mbind option_bind].
  rewrite expect_cons. cbn [mbind option_bind].
  rewrite read_two by done. cbn [mbind option_bind].
  rewrite expect_cons. cbn [mbind option_bind].
  rewrite read_two by done. cbn [mbind option_bind].
  pose proof (read_fraction_format us _ Hus Hhead) as Hfrac.
  cbn [chars list_ascii_of_string app] in Hfrac.
  rewrite Hfrac. cbn [mbind option_bind].
  rewrite Hoff. cbn [mbind option_bind].
  by rewrite Hvalid.
Qed.

(** ** Sorting *)

Lemma py_lt_aware k1 k2 i1 i2 :
  aware_key k1 = Some i1 -> aware_key k2 = Some i2 ->
  py_lt k1 k2 = Ok (i1 <? i2).
Proof.
  destruct k1 as [| | | | [w1 [o1 |]]]; try done.
  destruct k2 as [| | | | [w2 [o2 |]]]; try done.
  simpl. intros [= <-] [= <-]. reflexivity.
Qed.

Lemma dt_le_aware w1 o1 w2 o2 :
  dt_le (Datetime w1 (Some o1)) (Datetime w2 (Some o2))
  = Ok (instant w1 o1 <=? instant w2 o2).
Proof. reflexivity. Qed.

Lemma dt_lt_aware w1 o1 w2 o2 :
  dt_lt (Datetime w1 (Some o1)) (Datetime w2 (Some o2))
  = Ok (instant w1 o1 <? instant w2 o2).
Proof. reflexivity. Qed.

Lemma keyed_due r : aware_key (keyed r).1 = due_at r.
Proof. unfold keyed, due_at. by destruct (r !! "dateTime"). Qed.

Lemma insert_keyed_perm k r l l' :
  insert_keyed k r l = Ok l' -> l' ≡ₚ (k, r) :: l.
Proof.
  revert l'. induction l as [| [k' r'] l IH]; intros l'; simpl.
  - by intros [= <-].
  - destruct (py_lt k' k) as [[] |]; simpl; [| by intros [= <-] | done].
    destruct (insert_keyed k r l) as [l'' |]; simpl; [| done].
    intros [= <-]. rewrite (IH l'' eq_refl). apply perm_swap.
Qed.

Lemma sort_keyed_perm l l' : sort_keyed l = Ok l' -> l' ≡ₚ l.
Proof.
  revert l'. induction l as [| [k r] l IH]; intros l'; simpl.
  - by intros [= <-].
  - destruct (sort_keyed l) as [s |]; simpl; [| done].
    intros ->%insert_keyed_perm. by rewrite (IH s eq_refl).
Qed.

Lemma with_keys_inv rs l : with_keys rs = Ok l -> l = keyed <$> rs.
Proof.
  revert l. induction rs as [| r rs IH]; intros l; simpl.
  - by intros [= <-].
  - unfold getitem, keyed at 1. destruct (r !! "dateTime"); simpl; [| done].
    destruct (with_keys rs) as [l0 |]; simpl; [| done].
    intros [= <-]. by rewrite (IH l0 eq_refl).
Qed.

Lemma with_keys_ok rs :
  Forall (fun r => is_Some (r !! "dateTime")) rs -> with_keys rs = Ok (keyed <$> rs).
Proof.
  induction 1 as [| r rs [k Hk] _ IH]; simpl; [done |].
  unfold getitem, keyed at 1. rewrite Hk, IH. reflexivity.
Qed.

Lemma keyed_snd rs : (keyed <$> rs).*2 = rs.
Proof. induction rs; simpl; by f_equal. Qed.

Lemma sort_reminders_perm rs rs' : sort_reminders rs = Ok rs' -> rs' ≡ₚ rs.
Proof.
  unfold sort_reminders.
  destruct (with_keys rs) as [l |] eqn:Hk; simpl; [| done].
  destruct (sort_keyed l) as [s |] eqn:Hs; simpl; [| done].
  intros [= <-]. apply with_keys_inv in Hk as ->.
  apply sort_keyed_perm in Hs. by rewrite Hs, keyed_snd.
Qed.

Lemma key_le_trans p q t : key_le p q -> key_le q t -> key_le p t.
Proof.
  unfold key_le.
  destruct (aware_key p.1), (aware_key q.1), (aware_key t.1); try done. lia.
Qed.

Lemma insert_keyed_sorted k r l :
  key_aware (k, r) -> Forall key_aware l -> StronglySorted key_le l ->
  exists l', insert_keyed k r l = Ok l' /\ StronglySorted key_le l'.
Proof.
  intros [i Hi]. simpl in Hi.
  induction l as [| [k' r'] l IH]; intros Haware Hsorted; simpl.
  - eexists. split; [done |]. repeat constructor.
  - apply Forall_cons in Haware as [[j Hj] Haware]. simpl in Hj.
    apply StronglySorted_cons in Hsorted as [Hhd Hsorted].
    rewrite (py_lt_aware k' k j i) by done. simpl.
    destruct (Z.ltb_spec j i) as [Hlt | Hge].
    + destruct (IH Haware Hsorted) as (l' & Hl' & Hs').
      rewrite Hl'. simpl. eexists. split; [done |].
      apply StronglySorted_cons. split; [| done].
      rewrite (insert_keyed_perm _ _ _ _ Hl'). constructor; [| done].
      unfold key_le. simpl. rewrite Hi, Hj. lia.
    + eexists. split; [done |].
      assert (Hkk' : key_le (k, r) (k', r')).
      { unfold key_le. simpl. rewrite Hi, Hj. lia. }
      apply StronglySorted_cons. split.
      * constructor; [done |].
        eapply Forall_impl; [exact Hhd |]. intros q. by apply key_le_trans.
      * by apply StronglySorted_cons.
Qed.

Lemma sort_keyed_sorted l :
  Forall key_aware l ->
  exists l', sort_keyed l = Ok l' /\ StronglySorted key_le l'.
Proof.
  induction 1 as [| [k r] l Hk Hl IH]; simpl.
  - eexists. split; [done | constructor].
  - destruct IH as (s & Hs & Hsorted). rewrite Hs. simpl.
    apply insert_keyed_sorted; [done | | done].
    by rewrite (sort_keyed_perm _ _ Hs).
Qed.

Lemma insert_keyed_first k r l :
  Forall (key_le (k, r)) l -> insert_keyed k r l = Ok ((k, r) :: l).
Proof.
  destruct l as [| [k' r'] l]; [done |]. intros [Hle _]%Forall_cons.
  unfold key_le in Hle. simpl in *.
  destruct (aware_key k) as [i |] eqn:Hi; [| done].
  destruct (aware_key k') as [j |] eqn:Hj; [| done].
  rewrite (py_lt_aware k' k j i) by done. simpl.
  by destruct (Z.ltb_spec j i); [lia |].
Qed.

Lemma sort_keyed_id l : StronglySorted key_le l -> sort_keyed l = Ok l.
Proof.
  induction 1 as [| [k r] l _ IH Hhd]; simpl; [done |].
  rewrite IH. simpl. by apply insert_keyed_first.
Qed.

Lemma key_le_keyed a b : key_le (keyed a) (keyed b) <-> due_le a b.
Proof. unfold key_le, due_le. by rewrite !keyed_due. Qed.

Lemma sorted_keyed rs : StronglySorted key_le (keyed <$> rs) <-> ascending rs.
Proof.
  unfold ascending. induction rs as [| r rs IH]; simpl.
  - split; constructor.
  - rewrite !StronglySorted_cons, IH, Forall_fmap.
    apply and_iff_compat_r, Forall_proper; [| done].
    intros q. apply key_le_keyed.
Qed.

Lemma sort_reminders_id rs :
  Forall (fun r => is_Some (due_at r)) rs -> ascending rs ->
  sort_reminders rs = Ok rs.
Proof.
  intros Hdue Hasc. unfold sort_reminders.
  rewrite with_keys_ok.
  2: { eapply Forall_impl; [exact Hdue |]. intros r [i Hi]. unfold due_at in Hi.
       by destruct (r !! "dateTime"). }
  simpl. rewrite sort_keyed_id by by apply sorted_keyed.
  simpl. by rewrite keyed_snd.
Qed.

Lemma sort_reminders_sorted rs :
  Forall (fun r => is_Some (due_at r)) rs ->
  exists rs', sort_reminders rs = Ok rs' /\ rs' ≡ₚ rs /\ ascending rs'.
Proof.
  intros Hdue.
  assert (Hkeys : with_keys rs = Ok (keyed <$> rs)).
  { apply with_keys_ok. eapply Forall_impl; [exact Hdue |].
    intros r [i Hi]. unfold due_at in Hi. by destruct (r !! "dateTime"). }
  destruct (sort_keyed_sorted (keyed <$> rs)) as (s & Hs & Hsorted).
  { apply Forall_fmap. eapply Forall_impl; [exact Hdue |].
    intros r Hr. unfold key_aware, compose. by rewrite keyed_due. }
  assert (Hsort : sort_reminders rs = Ok s.*2).
  { unfold sort_reminders. rewrite Hkeys. simpl. by rewrite Hs. }
  exists (s.*2). split; [done |]. split; [by apply sort_reminders_perm |].
  assert (Hshape : s = keyed <$> s.*2).
  { assert (Hall : Forall (fun p => p = keyed p.2) s).
    { rewrite (sort_keyed_perm _ _ Hs). apply Forall_fmap, Forall_true. by intros r. }
    clear -Hall. induction Hall as [| p l Hp _ IH]; simpl; [done |]. by f_equal. }
  apply sorted_keyed. by rewrite <- Hshape.
Qed.

(** ** The invariant of the store *)

Section Proofs.

Variable local_utcoffset : wallclock -> Z.
Variable fromisoformat : string -> option datetime.

Local Abbreviation astimezone := (astimezone local_utcoffset).
Local Abbreviation ensure_aware := (ensure_aware local_utcoffset).
Local Abbreviation load_item := (load_item local_utcoffset fromisoformat).
Local Abbreviation load_items := (load_items local_utcoffset fromisoformat).
Local Abbreviation load_reminders := (load_reminders local_utcoffset fromisoformat).
Local Abbreviation add_reminder := (add_reminder local_utcoffset).
Local Abbreviation edit_reminder_dialog := (edit_reminder_dialog local_utcoffset).
Local Abbreviation check_reminder := (check_reminder local_utcoffset).
Local Abbreviation scan_from := (scan_from local_utcoffset).
Local Abbreviation scan := (scan local_utcoffset).
Local Abbreviation run := (run local_utcoffset).
Local Abbreviation step := (step local_utcoffset).
Local Abbreviation steps := (steps local_utcoffset).
Local Abbreviation reachable := (reachable local_utcoffset fromisoformat).
Local Abbreviation is_due := (is_due local_utcoffset).
Local Abbreviation event_of := (event_of local_utcoffset).
Local Abbreviation checked := (checked local_utcoffset).
Local Abbreviation overdue := (overdue local_utcoffset).
Local Abbreviation list_row := (list_row local_utcoffset).
Local Abbreviation list_rows_from := (list_rows_from local_utcoffset).
Local Abbreviation list_rows := (list_rows local_utcoffset).
Local Abbreviation row_of := (row_of local_utcoffset).

Lemma due_at_lookup r i :
  due_at r = Some i ->
  exists w o, r !! "dateTime" = Some (VDatetime (Datetime w (Some o)))
              /\ i = instant w o.
Proof.
  unfold due_at. destruct (r !! "dateTime") as [[| | | | [w [o |]]] |]; try done.
  simpl. intros [= <-]. eauto.
Qed.

Lemma due_at_aware r w o :
  r !! "dateTime" = Some (VDatetime (Datetime w (Some o))) ->
  due_at r = Some (instant w o).
Proof. unfold due_at. by intros ->. Qed.

Lemma ensure_aware_aware w o :
  ensure_aware (Datetime w (Some o)) = Datetime w (Some o).
Proof. reflexivity. Qed.

Lemma ensure_aware_is_aware d : is_Some (tzinfo (ensure_aware d)).
Proof. destruct d as [w [o |]]; simpl; eauto. Qed.

Lemma kept_update_item r : kept r -> update_item r = Ok ().
Proof.
  intros ([i Hi] & [t Ht] & [x Hx] & _).
  apply due_at_lookup in Hi as (w & o & Hd & _).
  unfold update_item, getitem. by rewrite Hd, Ht, Hx.
Qed.

Lemma update_list_kept rs : Forall kept rs -> update_list rs = Ok ().
Proof.
  induction 1 as [| r rs Hr _ IH]; simpl; [done |].
  by rewrite (kept_update_item r Hr).
Qed.

Lemma update_list_inv rs :
  update_list rs = Ok () ->
  Forall (fun r => is_datetime (r !! "dateTime") = true ->
                   is_Some (r !! "text") /\ is_Some (r !! "id")) rs.
Proof.
  induction rs as [| r rs IH]; simpl; [constructor |].
  destruct (update_item r) as [[] |] eqn:Hr; simpl; [| done].
  intros Hrs. constructor; [| by apply IH].
  unfold update_item, getitem in Hr.
  destruct (r !! "dateTime") as [[] |]; try done. simpl in Hr.
  destruct (r !! "text"); [| done]. destruct (r !! "id"); [| done].
  eauto.
Qed.

Lemma serialisable_stored r s :
  storable r -> serialisable (<["dateTime" := VStr s]> r).
Proof.
  unfold storable, serialisable. intros Hr.
  rewrite <- insert_delete_eq.
  apply map_Forall_insert_2; [done | exact Hr].
Qed.

Lemma storable_insert_json k v r :
  is_json v -> storable r -> storable (<[k := v]> r).
Proof.
  unfold storable, serialisable. intros Hv Hr.
  destruct (decide (k = "dateTime")) as [-> | Hk].
  - by rewrite delete_insert_eq.
  - rewrite delete_insert_ne by done. by apply map_Forall_insert_2.
Qed.

Lemma storable_insert_due v r : storable r -> storable (<["dateTime" := v]> r).
Proof. unfold storable. by rewrite delete_insert_eq. Qed.

Lemma serialisable_storable r : serialisable r -> storable r.
Proof. unfold storable, serialisable. apply map_Forall_delete. Qed.

Lemma kept_perm rs rs' : rs' ≡ₚ rs -> Forall kept rs -> Forall kept rs'.
Proof. by intros ->. Qed.

Lemma kept_due_all rs :
  Forall kept rs -> Forall (fun r => is_Some (due_at r)) rs.
Proof. intros H. eapply Forall_impl; [exact H |]. by intros r (? & _). Qed.

Lemma reminders_to_save_filter rs :
  reminders_to_save rs = persisted <$> List.filter has_datetime rs.
Proof.
  unfold reminders_to_save. induction rs as [| r rs IH]; [done |].
  cbn [omap list_omap List.filter]. rewrite IH.
  assert (Hr : save_entry r = if has_datetime r then Some (persisted r) else None).
  { unfold save_entry, has_datetime, persisted.
    by destruct (r !! "dateTime") as [[] |]. }
  rewrite Hr. by destruct (has_datetime r).
Qed.

Lemma persisted_serialisable r : storable r -> serialisable (persisted r).
Proof.
  intros Hr. unfold persisted.
  destruct (r !! "dateTime") as [v |] eqn:Hv.
  - destruct v; try by apply serialisable_stored.
    all: unfold storable, serialisable in *.
    all: rewrite <- (insert_id r "dateTime" _ Hv), <- insert_delete_eq.
    all: by apply map_Forall_insert_2.
  - unfold storable in Hr. by rewrite delete_id in Hr.
Qed.

Lemma save_reminders_storable st :
  Forall storable (reminders st) ->
  save_reminders st
  = (App (reminders st)
       (JsonItems (Obj <$> (persisted <$> List.filter has_datetime (reminders st)))),
     []).
Proof.
  intros Hst. unfold save_reminders, json_dump.
  rewrite reminders_to_save_filter.
  rewrite bool_decide_eq_true_2; [done |].
  apply Forall_fmap.
  assert (Hsub : Forall storable (List.filter has_datetime (reminders st))).
  { apply Forall_forall. intros r [Hr _]%list_elem_of_In%filter_In.
    rewrite Forall_forall in Hst. by apply Hst, list_elem_of_In. }
  eapply Forall_impl; [exact Hsub |]. intros r. apply persisted_serialisable.
Qed.

Lemma filter_has_datetime_kept rs :
  Forall kept rs -> List.filter has_datetime rs = rs.
Proof.
  induction 1 as [| r rs Hr _ IH]; simpl; [done |].
  destruct Hr as ([i Hi] & _). apply due_at_lookup in Hi as (w & o & Hd & _).
  unfold has_datetime at 1. rewrite Hd. simpl. by rewrite IH.
Qed.

Lemma save_reminders_kept rs f :
  Forall kept rs ->
  save_reminders (App rs f) = (App rs (JsonItems (Obj <$> (persisted <$> rs))), []).
Proof.
  intros Hrs. rewrite save_reminders_storable; simpl.
  - by rewrite filter_has_datetime_kept.
  - eapply Forall_impl; [exact Hrs |]. by intros r (_ & _ & _ & _ & ?).
Qed.

(** The common tail of [add_reminder] and [edit_reminder_dialog]: sort,
    refresh the list widget, save. *)
Lemma commit_kept rs :
  Forall kept rs ->
  exists rs', sort_reminders rs = Ok rs' /\ rs' ≡ₚ rs /\ well_kept rs'
              /\ update_list rs' = Ok ().
Proof.
  intros Hrs.
  destruct (sort_reminders_sorted rs (kept_due_all rs Hrs)) as (rs' & Hs & Hp & Ha).
  exists rs'. pose proof (kept_perm _ _ Hp Hrs) as Hk.
  repeat split; try done. by apply update_list_kept.
Qed.

Lemma setdefault_lookup_ne k k' v (r : reminder) :
  k <> k' -> setdefault k v r !! k' = r !! k'.
Proof.
  intros Hk. unfold setdefault. destruct (r !! k); [done |].
  by rewrite lookup_insert_ne.
Qed.

Lemma setdefault_lookup k v (r : reminder) : is_Some (setdefault k v r !! k).
Proof.
  unfold setdefault. destruct (r !! k) eqn:Hk; [by rewrite Hk |].
  rewrite lookup_insert_eq. eauto.
Qed.

Lemma setdefault_present k v (r : reminder) :
  is_Some (r !! k) -> setdefault k v r = r.
Proof. intros [x Hx]. unfold setdefault. by rewrite Hx. Qed.

Lemma load_item_inv it r :
  load_item it = Ok r ->
  exists m s d, it = Obj m /\ m !! "dateTime" = Some (VStr s)
    /\ fromisoformat s = Some d
    /\ r = setdefault "notified" (VBool false)
             (<["dateTime" := VDatetime (ensure_aware d)]> m).
Proof.
  destruct it as [m |]; simpl; [| done]. unfold getitem.
  destruct (m !! "dateTime") as [[| | | s |] |] eqn:Hm; simpl; try done.
  destruct (fromisoformat s) as [d |] eqn:Hd; [| done].
  intros [= <-]. eauto 10.
Qed.

Lemma load_item_due it r :
  load_item it = Ok r ->
  exists d, r !! "dateTime" = Some (VDatetime (ensure_aware d)).
Proof.
  intros (m & s & d & _ & _ & _ & ->)%load_item_inv. exists d.
  rewrite setdefault_lookup_ne by done. apply lookup_insert_eq.
Qed.

Lemma due_at_ensure_aware r d :
  r !! "dateTime" = Some (VDatetime (ensure_aware d)) -> is_Some (due_at r).
Proof.
  intros Hr. unfold due_at. rewrite Hr. simpl.
  destruct d as [w [o |]]; simpl; eauto.
Qed.

Lemma load_items_elem items r :
  r ∈ load_items items -> exists it, it ∈ items /\ load_item it = Ok r.
Proof.
  induction items as [| it items IH]; simpl; [by intros ?%elem_of_nil |].
  destruct (load_item it) as [r0 |] eqn:Hit.
  - intros [-> | Hr]%elem_of_cons.
    + exists it. split; [left | done].
    + destruct (IH Hr) as (it' & ? & ?). exists it'. split; [by right | done].
  - intros Hr. destruct (IH Hr) as (it' & ? & ?). exists it'.
    split; [by right | done].
Qed.

Lemma load_item_loaded it r :
  json_item it -> load_item it = Ok r ->
  is_Some (due_at r) /\ is_Some (r !! "notified") /\ storable r.
Proof.
  intros Hjson Hload. split; [| split].
  - apply load_item_due in Hload as [d Hd]. by eapply due_at_ensure_aware.
  - apply load_item_inv in Hload as (m & s & d & _ & _ & _ & ->).
    apply setdefault_lookup.
  - apply load_item_inv in Hload as (m & s & d & -> & _ & _ & ->).
    simpl in Hjson. unfold setdefault.
    destruct (_ !! "notified").
    + by apply storable_insert_due, serialisable_storable.
    + apply storable_insert_json; [done |].
      by apply storable_insert_due, serialisable_storable.
Qed.

(** Whatever the file holds, the store [load_reminders] builds is sorted
    and every record of it has an aware [dateTime]. *)
Lemma load_reminders_sorted f st :
  load_reminders f = Ok st ->
  Forall (fun r => is_Some (due_at r)) (reminders st) /\ ascending (reminders st).
Proof.
  unfold load_reminders.
  set (rs := match f with JsonItems items => _ | _ => [] end).
  assert (Hrs : Forall (fun r => is_Some (due_at r)) rs /\ ascending rs).
  { subst rs. destruct f as [| | | items]; try (split; constructor).
    assert (Hdue : Forall (fun r => is_Some (due_at r)) (load_items items)).
    { apply Forall_forall. intros r (it & _ & Hit)%load_items_elem.
      apply load_item_due in Hit as [d Hd]. by eapply due_at_ensure_aware. }
    destruct (sort_reminders_sorted _ Hdue) as (rs' & -> & Hp & Ha).
    simpl. split; [by rewrite Hp | done]. }
  destruct (update_list rs) as [[] |]; simpl; [| done].
  by intros [= <-].
Qed.

Lemma load_reminders_well_kept f st :
  json_file f -> load_reminders f = Ok st -> well_kept (reminders st).
Proof.
  intros Hjson Hload.
  destruct (load_reminders_sorted f st Hload) as [Hdue Hasc].
  split; [| done].
  unfold load_reminders in Hload.
  set (rs := match f with JsonItems items => _ | _ => [] end) in Hload.
  destruct (update_list rs) as [[] |] eqn:Hshown; simpl in Hload; [| done].
  injection Hload as <-. simpl in *.
  apply update_list_inv in Hshown.
  assert (Hloaded : Forall (fun r => is_Some (r !! "notified") /\ storable r) rs).
  { subst rs. destruct f as [| | | items]; try constructor.
    assert (Hall : Forall (fun r => is_Some (r !! "notified") /\ storable r)
                     (load_items items)).
    { apply Forall_forall. intros r (it & Hin & Hit)%load_items_elem.
      simpl in Hjson. rewrite Forall_forall in Hjson.
      by destruct (load_item_loaded it r (Hjson it Hin) Hit) as (_ & ? & ?). }
    destruct (sort_reminders (load_items items)) as [rs' |] eqn:Hs; simpl;
      [| constructor].
    by rewrite (sort_reminders_perm _ _ Hs). }
  rewrite Forall_forall in Hdue, Hshown, Hloaded. apply Forall_forall.
  intros r Hr. destruct (Hloaded r Hr) as [Hn Hst].
  destruct (Hdue r Hr) as [i Hi].
  destruct (due_at_lookup r i Hi) as (w & o & Hd & _).
  destruct (Hshown r Hr) as [Ht Hid]; [by rewrite Hd |].
  repeat split; eauto.
Qed.

(** ** One wake of the checker thread *)

Lemma checked_eq now r :
  checked now r = if is_due now r then mark_notified r else r.
Proof. reflexivity. Qed.

Lemma dt_le_ensure_aware d now :
  dt_le (ensure_aware d) (astimezone now)
  = Ok (bool_decide (instant_of (ensure_aware d) <= instant_of (astimezone now))).
Proof.
  destruct d as [w [o |]]; simpl; unfold dt_le, dt_compare, instant_of; simpl.
  all: f_equal; match goal with |- is_le (?a ?= ?b) = _ =>
         destruct (Z.compare_spec a b);
         [rewrite bool_decide_eq_true_2 by lia
         | rewrite bool_decide_eq_true_2 by lia
         | rewrite bool_decide_eq_false_2 by lia]; reflexivity end.
Qed.

Lemma check_reminder_spec now r :
  (is_due now r = true -> has_title r) ->
  check_reminder (astimezone now) r
  = Ok (checked now r, if is_due now r then [event_of r] else []).
Proof.
  unfold check_reminder, checked, is_due, event_of, notified, has_title.
  destruct (r !! "dateTime") as [[| | | | d] |] eqn:Hd; try done.
  rewrite dt_le_ensure_aware.
  destruct (truthy _); simpl; [done |].
  destruct (bool_decide _); simpl; [| done].
  intros Ht. destruct (Ht eq_refl) as [t Htext]. unfold getitem.
  by rewrite Htext.
Qed.

Lemma scan_from_spec now rs :
  Forall (fun r => is_due now r = true -> has_title r) rs ->
  scan now rs = Ok (checked now <$> rs, event_of <$> List.filter (is_due now) rs).
Proof.
  unfold scan. induction 1 as [| r rs Hr _ IH]; [done |].
  cbn [scan_from]. rewrite (check_reminder_spec now r Hr). cbn [mbind result_bind].
  rewrite IH. cbn [mbind result_bind fmap list_fmap List.filter].
  by destruct (is_due now r).
Qed.

Lemma check_reminder_inv now_aware r r' e :
  check_reminder now_aware r = Ok (r', e) ->
  r' = r \/ r' = mark_notified r.
Proof.
  unfold check_reminder.
  destruct (r !! "dateTime") as [[| | | | d] |]; try (intros [= <- <-]; by left).
  destruct (if truthy _ then _ else _) as [[] |]; simpl; try done.
  - unfold getitem. destruct (r !! "text") as [[| | | t |] |]; simpl; try done.
    intros [= <- <-]. by right.
  - intros [= <- <-]. by left.
Qed.

Lemma due_at_mark_notified r : due_at (mark_notified r) = due_at r.
Proof. unfold due_at, mark_notified. by rewrite lookup_insert_ne. Qed.

Lemma kept_mark_notified r : kept r -> kept (mark_notified r).
Proof.
  intros (Hd & Ht & Hi & Hn & Hs). unfold kept.
  rewrite due_at_mark_notified. unfold mark_notified.
  rewrite !lookup_insert_ne by done. rewrite lookup_insert_eq.
  repeat split; eauto. by apply storable_insert_json.
Qed.

Lemma ascending_same_due rs rs' :
  Forall2 (fun a b => due_at a = due_at b) rs rs' -> ascending rs -> ascending rs'.
Proof.
  unfold ascending. induction 1 as [| a b rs rs' Hab Hrs IH]; [done |].
  rewrite !StronglySorted_cons. intros [Hhd Htl]. split; [| by apply IH].
  clear IH Htl. induction Hrs as [| c e rs rs' Hce _ IH]; [done |].
  apply Forall_cons in Hhd as [Hac Hhd]. constructor; [| by apply IH].
  unfold due_le in *. by rewrite <- Hab, <- Hce.
Qed.

Lemma scan_from_inv now_aware rs rs' es :
  scan_from now_aware rs = Ok (rs', es) ->
  Forall2 (fun r r' => r' = r \/ r' = mark_notified r) rs rs'.
Proof.
  revert rs' es. induction rs as [| r rs IH]; intros rs' es; simpl.
  - intros [= <- <-]. constructor.
  - destruct (check_reminder now_aware r) as [[r1 e] |] eqn:Hr; simpl; [| done].
    destruct (scan_from now_aware rs) as [[rs1 es1] |] eqn:Hrs; simpl; [| done].
    intros [= <- <-]. constructor; [by eapply check_reminder_inv | by eapply IH].
Qed.

Lemma scan_well_kept now rs rs' es :
  scan now rs = Ok (rs', es) -> well_kept rs -> well_kept rs'.
Proof.
  intros Hscan%scan_from_inv [Hk Ha]. split.
  - clear Ha. induction Hscan as [| r r' rs rs' Hr _ IH]; [done |].
    apply Forall_cons in Hk as [Hkr Hk]. constructor; [| by apply IH].
    destruct Hr as [-> | ->]; [done | by apply kept_mark_notified].
  - eapply ascending_same_due; [| exact Ha].
    eapply Forall2_impl; [exact Hscan |].
    intros r r' [-> | ->]; [done | by rewrite due_at_mark_notified].
Qed.

(** ** [add_reminder] *)

Lemma new_reminder_fields stamp text due :
  new_reminder stamp text due !! "id" = Some (VNum stamp)
  /\ new_reminder stamp text due !! "text" = Some (VStr text)
  /\ new_reminder stamp text due !! "dateTime" = Some (VDatetime due)
  /\ new_reminder stamp text due !! "notified" = Some (VBool false).
Proof. unfold new_reminder. repeat split; by simplify_map_eq. Qed.

Lemma new_reminder_kept stamp text w :
  kept (new_reminder stamp text (astimezone w)).
Proof.
  destruct (new_reminder_fields stamp text (astimezone w)) as (Hi & Ht & Hd & Hn).
  unfold kept. rewrite Hi, Ht, Hn. unfold due_at. rewrite Hd. simpl.
  repeat split; eauto.
  unfold new_reminder.
  apply storable_insert_json; [done |]. apply storable_insert_json; [done |].
  apply storable_insert_due. apply serialisable_storable.
  unfold serialisable. rewrite <- insert_empty.
  apply map_Forall_insert_2; [done | apply map_Forall_empty].
Qed.

Lemma dt_le_astimezone a b :
  dt_le (astimezone a) (astimezone b)
  = Ok (bool_decide (instant_of (astimezone a) <= instant_of (astimezone b))).
Proof. apply (dt_le_ensure_aware (Datetime a None) b). Qed.

Lemma dt_gt_astimezone a b :
  dt_gt (astimezone a) (astimezone b)
  = Ok (bool_decide (instant_of (astimezone b) < instant_of (astimezone a))).
Proof.
  unfold dt_gt, dt_lt, dt_compare, instant_of. simpl. f_equal.
  match goal with |- is_lt (?x ?= ?y) = _ =>
    destruct (Z.compare_spec x y);
    [rewrite bool_decide_eq_false_2 by lia
    | rewrite bool_decide_eq_true_2 by lia
    | rewrite bool_decide_eq_false_2 by lia]; reflexivity end.
Qed.

Lemma add_reminder_valid text q now stamp st :
  Forall kept (reminders st) -> text <> "" ->
  instant_of (astimezone now) < instant_of (astimezone q) ->
  exists rs f,
    add_reminder text q now stamp st = Ok (App rs f, [])
    /\ rs ≡ₚ new_reminder stamp text (astimezone q) :: reminders st
    /\ well_kept rs.
Proof.
  intros Hk Htext Hfuture. unfold add_reminder.
  rewrite bool_decide_eq_false_2 by done.
  rewrite dt_le_astimezone. cbn [mbind result_bind].
  rewrite bool_decide_eq_false_2 by lia.
  destruct (commit_kept (reminders st ++ [new_reminder stamp text (astimezone q)]))
    as (rs & Hsort & Hperm & Hwk & Hshown).
  { apply Forall_app. split; [done |]. constructor; [| done].
    apply new_reminder_kept. }
  rewrite Hsort. cbn [mbind result_bind]. rewrite Hshown. cbn [mbind result_bind].
  rewrite save_reminders_kept by apply Hwk.
  eexists _, _. split; [done |]. split; [| done].
  rewrite Hperm. by rewrite Permutation_app_comm.
Qed.

Lemma add_reminder_cases text q now stamp st st' shown :
  Forall kept (reminders st) ->
  add_reminder text q now stamp st = Ok (st', shown) ->
  st' = st
  \/ (reminders st' ≡ₚ new_reminder stamp text (astimezone q) :: reminders st
      /\ well_kept (reminders st')).
Proof.
  intros Hk.
  destruct (decide (text = "")) as [-> | Htext].
  { unfold add_reminder. rewrite bool_decide_eq_true_2 by done.
    intros [= <- _]. by left. }
  destruct (decide (instant_of (astimezone q) <= instant_of (astimezone now)))
    as [Hpast | Hfuture].
  { unfold add_reminder. rewrite bool_decide_eq_false_2 by done.
    rewrite dt_le_astimezone. cbn [mbind result_bind].
    rewrite bool_decide_eq_true_2 by done. intros [= <- _]. by left. }
  destruct (add_reminder_valid text q now stamp st Hk Htext) as (rs & f & -> & ? & ?);
    [lia |].
  intros [= <- _]. by right.
Qed.

Lemma add_reminder_well_kept text q now stamp st st' shown :
  well_kept (reminders st) ->
  add_reminder text q now stamp st = Ok (st', shown) ->
  well_kept (reminders st').
Proof.
  intros Hwk Hop.
  destruct (add_reminder_cases _ _ _ _ _ _ _ (proj1 Hwk) Hop) as [-> | [_ ?]]; done.
Qed.

(** ** [delete_reminder] *)

Lemma remove_id_filter reminder_id rs :
  Forall kept rs ->
  remove_id reminder_id rs = Ok (List.filter (other_id reminder_id) rs).
Proof.
  induction 1 as [| r rs Hr _ IH]; [done |].
  destruct Hr as (_ & _ & [x Hx] & _).
  cbn [remove_id List.filter]. unfold getitem, other_id at 1. rewrite Hx, IH.
  cbn [mbind result_bind]. by destruct (py_eq x reminder_id).
Qed.

Lemma find_text_kept reminder_id rs :
  Forall kept rs -> exists subject, find_text reminder_id rs = Ok subject.
Proof.
  induction 1 as [| r rs Hr _ [subject IH]]; [by eexists |].
  destruct Hr as (_ & [t Ht] & [x Hx] & _).
  cbn [find_text]. unfold getitem. rewrite Hx, Ht. cbn [mbind result_bind].
  destruct (py_eq x reminder_id); by eexists.
Qed.

Lemma find_text_absent reminder_id rs :
  Forall kept rs -> id_absent reminder_id rs -> find_text reminder_id rs = Ok None.
Proof.
  intros Hk Habs. induction Hk as [| r rs Hr _ IH]; [done |].
  apply Forall_cons in Habs as [Hx Habs].
  destruct Hr as (_ & _ & [x Hid] & _). rewrite Hid in Hx.
  cbn [find_text]. unfold getitem. rewrite Hid. cbn [mbind result_bind].
  rewrite Hx. by apply IH.
Qed.

Lemma filter_other_id_absent reminder_id rs :
  id_absent reminder_id rs -> List.filter (other_id reminder_id) rs = rs.
Proof.
  induction 1 as [| r rs Hr _ IH]; [done |].
  cbn [List.filter]. unfold other_id at 1.
  destruct (r !! "id"); [rewrite Hr |]; simpl; by rewrite IH.
Qed.

Lemma Forall_filter_bool {A} (P : A -> Prop) (f : A -> bool) l :
  Forall P l -> Forall P (List.filter f l).
Proof.
  induction 1 as [| x l Hx _ IH]; simpl; [done |].
  destruct (f x); [by constructor | done].
Qed.

Lemma ascending_filter f rs : ascending rs -> ascending (List.filter f rs).
Proof.
  unfold ascending. induction rs as [| r rs IH]; simpl; [done |].
  rewrite StronglySorted_cons. intros [Hhd Htl].
  destruct (f r); [| by apply IH].
  apply StronglySorted_cons. split; [by apply Forall_filter_bool | by apply IH].
Qed.

Lemma well_kept_filter f rs : well_kept rs -> well_kept (List.filter f rs).
Proof.
  intros [Hk Ha]. split; [by apply Forall_filter_bool | by apply ascending_filter].
Qed.

Lemma delete_reminder_confirmed reminder_id st :
  Forall kept (reminders st) ->
  exists subject f,
    delete_reminder (Some reminder_id) true st
    = Ok (App (List.filter (other_id reminder_id) (reminders st)) f,
          [Question "Confirm Delete" subject]).
Proof.
  intros Hk. unfold delete_reminder.
  destruct (find_text_kept reminder_id _ Hk) as [subject ->].
  cbn [mbind result_bind]. rewrite remove_id_filter by done.
  cbn [mbind result_bind].
  rewrite update_list_kept by by apply Forall_filter_bool.
  cbn [mbind result_bind].
  rewrite save_reminders_kept by by apply Forall_filter_bool.
  by eexists _, _.
Qed.

Lemma delete_reminder_cases selected confirm st st' shown :
  Forall kept (reminders st) ->
  delete_reminder selected confirm st = Ok (st', shown) ->
  st' = st
  \/ exists reminder_id,
       reminders st' = List.filter (other_id reminder_id) (reminders st).
Proof.
  intros Hk.
  destruct selected as [reminder_id |]; [| intros [= <- _]; by left].
  destruct confirm.
  - destruct (delete_reminder_confirmed reminder_id st Hk) as (subject & f & ->).
    intros [= <- _]. right. by exists reminder_id.
  - unfold delete_reminder.
    destruct (find_text_kept reminder_id _ Hk) as [subject ->].
    intros [= <- _]. by left.
Qed.

Lemma delete_reminder_well_kept selected confirm st st' shown :
  well_kept (reminders st) ->
  delete_reminder selected confirm st = Ok (st', shown) ->
  well_kept (reminders st').
Proof.
  intros Hwk Hop.
  destruct (delete_reminder_cases _ _ _ _ _ (proj1 Hwk) Hop) as [-> | [i ->]];
    [done | by apply well_kept_filter].
Qed.

(** ** [edit_reminder_dialog] *)

Lemma find_reminder_kept reminder_id rs :
  Forall kept rs -> exists found, find_reminder reminder_id rs = Ok found.
Proof.
  induction 1 as [| r rs Hr _ [found IH]]; [by eexists |].
  destruct Hr as (_ & _ & [x Hx] & _).
  cbn [find_reminder]. unfold getitem. rewrite Hx. cbn [mbind result_bind].
  destruct (py_eq x reminder_id); [by eexists |]. rewrite IH. by eexists.
Qed.

Lemma find_reminder_lookup reminder_id rs i r :
  find_reminder reminder_id rs = Ok (Some (i, r)) -> rs !! i = Some r.
Proof.
  revert i. induction rs as [| r0 rs IH]; intros i; [done |].
  cbn [find_reminder]. unfold getitem.
  destruct (r0 !! "id") as [x |]; [| done]. cbn [mbind result_bind].
  destruct (py_eq x reminder_id); [by intros [= <- <-] |].
  destruct (find_reminder reminder_id rs) as [[[j r1] |] |]; simpl; try done.
  intros [= <- <-]. by apply IH.
Qed.

Lemma edited_reminder_fields r new_text due reset :
  edited_reminder r new_text due reset !! "text" = Some (VStr new_text)
  /\ edited_reminder r new_text due reset !! "dateTime" = Some (VDatetime due)
  /\ edited_reminder r new_text due reset !! "notified"
     = (if reset then Some (VBool false) else r !! "notified")
  /\ forall k, k <> "text" -> k <> "dateTime" -> k <> "notified" ->
               edited_reminder r new_text due reset !! k = r !! k.
Proof.
  unfold edited_reminder. destruct reset; repeat split; intros; by simplify_map_eq.
Qed.

Lemma edited_reminder_kept r new_text w reset :
  kept r -> kept (edited_reminder r new_text (astimezone w) reset).
Proof.
  intros (Hd & Ht & Hi & Hn & Hs).
  destruct (edited_reminder_fields r new_text (astimezone w) reset)
    as (Ht' & Hd' & Hn' & Hother).
  unfold kept. rewrite Ht', Hn', (Hother "id") by done.
  unfold due_at. rewrite Hd'. simpl.
  repeat split; eauto; [by destruct reset; eauto |].
  unfold edited_reminder.
  destruct reset;
    repeat (apply storable_insert_due || (apply storable_insert_json; [done |]));
    done.
Qed.

Lemma edit_reminder_valid reminder_id i r new_text edited now st :
  Forall kept (reminders st) ->
  find_reminder reminder_id (reminders st) = Ok (Some (i, r)) ->
  new_text <> "" ->
  instant_of (astimezone now) < instant_of (astimezone edited) ->
  exists rs f,
    edit_reminder_dialog reminder_id (Some (new_text, edited)) now st
    = Ok (App rs f, [])
    /\ rs ≡ₚ <[i := edited_reminder r new_text (astimezone edited)
                      (notified r || overdue now r)]> (reminders st)
    /\ well_kept rs.
Proof.
  intros Hk Hfound Htext Hfuture.
  pose proof (find_reminder_lookup _ _ _ _ Hfound) as Hi.
  assert (Hr : kept r).
  { rewrite Forall_forall in Hk. apply Hk. by eapply list_elem_of_lookup_2. }
  pose proof Hr as ([d Hd] & [t Ht] & _).
  destruct (due_at_lookup r d Hd) as (w & o & Hdt & ->).
  unfold edit_reminder_dialog. rewrite Hfound. cbn [mbind result_bind].
  rewrite bool_decide_eq_false_2.
  2: { intros ->. by rewrite lookup_empty in Ht. }
  unfold getitem. rewrite Hdt. cbn [mbind result_bind].
  rewrite bool_decide_eq_false_2 by done.
  rewrite dt_le_astimezone. cbn [mbind result_bind].
  rewrite bool_decide_eq_false_2 by lia.
  rewrite dt_gt_astimezone. cbn [mbind result_bind].
  rewrite bool_decide_eq_true_2 by done.
  assert (Hreset :
    (if truthy (get r "notified" (VBool false)) then Ok true
     else dt_le (Datetime w (Some o)) (astimezone now))
    = Ok (notified r || overdue now r)).
  { unfold notified, overdue. rewrite Hd.
    destruct (truthy _); [done |]. simpl.
    rewrite <- (ensure_aware_aware w o), dt_le_ensure_aware. reflexivity. }
  rewrite Hreset. cbn [mbind result_bind].
  destruct (commit_kept
              (<[i := edited_reminder r new_text (astimezone edited)
                        (notified r || overdue now r)]> (reminders st)))
    as (rs & Hsort & Hperm & Hwk & Hshown).
  { apply Forall_insert; [done |]. by apply edited_reminder_kept. }
  rewrite Hsort. cbn [mbind result_bind]. rewrite Hshown. cbn [mbind result_bind].
  rewrite save_reminders_kept by apply Hwk.
  by eexists _, _.
Qed.

Lemma edit_reminder_cases reminder_id reply now st st' shown :
  Forall kept (reminders st) ->
  edit_reminder_dialog reminder_id reply now st = Ok (st', shown) ->
  st' = st
  \/ exists i r new_text due reset,
       reminders st !! i = Some r
       /\ reminders st' ≡ₚ <[i := edited_reminder r new_text due reset]> (reminders st)
       /\ well_kept (reminders st').
Proof.
  intros Hk.
  destruct (find_reminder_kept reminder_id _ Hk) as [[[i r] |] Hfound].
  2: { unfold edit_reminder_dialog. rewrite Hfound. intros [= <- _]. by left. }
  destruct reply as [[new_text edited] |].
  2: { unfold edit_reminder_dialog. rewrite Hfound. cbn [mbind result_bind].
       destruct (bool_decide _); [intros [= <- _]; by left |].
       destruct (getitem r "dateTime") as [[] |]; simpl; try done;
         intros [= <- _]; by left. }
  destruct (decide (new_text = "")) as [-> | Htext].
  { unfold edit_reminder_dialog. rewrite Hfound. cbn [mbind result_bind].
    destruct (bool_decide _); [intros [= <- _]; by left |].
    destruct (getitem r "dateTime") as [[] |]; simpl; try done;
      intros [= <- _]; by left. }
  destruct (decide (instant_of (astimezone edited) <= instant_of (astimezone now)))
    as [Hpast | Hfuture].
  { unfold edit_reminder_dialog. rewrite Hfound. cbn [mbind result_bind].
    destruct (bool_decide _); [intros [= <- _]; by left |].
    destruct (getitem r "dateTime") as [[] |]; cbn [mbind result_bind];
      try done; try (intros [= <- _]; by left).
    rewrite bool_decide_eq_false_2 by done.
    rewrite dt_le_astimezone. cbn [mbind result_bind].
    rewrite bool_decide_eq_true_2 by done. intros [= <- _]. by left. }
  destruct (edit_reminder_valid reminder_id i r new_text edited now st Hk Hfound Htext)
    as (rs & f & -> & ? & ?); [lia |].
  intros [= <- _]. right. exists i, r. eexists _, _, _.
  split; [by eapply find_reminder_lookup | done].
Qed.

Lemma edit_reminder_well_kept reminder_id reply now st st' shown :
  well_kept (reminders st) ->
  edit_reminder_dialog reminder_id reply now st = Ok (st', shown) ->
  well_kept (reminders st').
Proof.
  intros Hwk Hop.
  destruct (edit_reminder_cases _ _ _ _ _ _ (proj1 Hwk) Hop)
    as [-> | (? & ? & ? & ? & ? & _ & _ & ?)]; done.
Qed.

(** ** Every state of a session satisfies the invariant *)

Lemma step_well_kept st a st' :
  well_kept (reminders st) -> step st a = Ok st' -> well_kept (reminders st').
Proof.
  intros Hwk. destruct a as [text q now stamp | i reply now | sel confirm | now];
    cbn [step].
  - destruct (add_reminder text q now stamp st) as [[st1 shown] |] eqn:Hop;
      simpl; [| done].
    intros [= <-]. by eapply add_reminder_well_kept.
  - destruct (edit_reminder_dialog i reply now st) as [[st1 shown] |] eqn:Hop;
      simpl; [| done].
    intros [= <-]. by eapply edit_reminder_well_kept.
  - destruct (delete_reminder sel confirm st) as [[st1 shown] |] eqn:Hop;
      simpl; [| done].
    intros [= <-]. by eapply delete_reminder_well_kept.
  - destruct (scan now (reminders st)) as [[rs es] |] eqn:Hop; simpl; [| done].
    intros [= <-]. by eapply scan_well_kept.
Qed.

Lemma steps_well_kept ok st st' :
  steps ok st st' -> well_kept (reminders st) -> well_kept (reminders st').
Proof.
  induction 1 as [| st st' st'' a _ IH _ Hstep]; [done |].
  intros Hwk. eapply step_well_kept; [by apply IH | exact Hstep].
Qed.

Lemma reachable_well_kept st : reachable st -> well_kept (reminders st).
Proof.
  intros (f & st0 & Hjson & Hload & Hsteps).
  eapply steps_well_kept; [exact Hsteps |].
  by eapply load_reminders_well_kept.
Qed.

(** ** Distinct ids *)

Lemma dt_eqb_sym a b : dt_eqb a b = dt_eqb b a.
Proof.
  unfold dt_eqb, dt_compare.
  destruct (tzinfo a), (tzinfo b); try done.
  all: match goal with |- context [?x ?= ?y] =>
         rewrite (Z.compare_antisym x y); by destruct (x ?= y) end.
Qed.

Lemma py_eq_sym a b : py_eq a b = py_eq b a.
Proof.
  destruct a, b; simpl; try done; try apply dt_eqb_sym.
  all: apply bool_decide_ext; split; by intros ->.
Qed.

Lemma same_id_sym a b : same_id a b -> same_id b a.
Proof.
  unfold same_id. destruct (a !! "id"), (b !! "id"); try done.
  by rewrite py_eq_sym.
Qed.

Lemma same_id_ext a a' b b' :
  a !! "id" = a' !! "id" -> b !! "id" = b' !! "id" ->
  same_id a b -> same_id a' b'.
Proof. unfold same_id. by intros -> ->. Qed.

Lemma ids_distinct_perm rs rs' : rs ≡ₚ rs' -> ids_distinct rs -> ids_distinct rs'.
Proof.
  induction 1 as [| r rs rs' Hp IH | a b rs | rs1 rs2 rs3 _ IH1 _ IH2]; simpl.
  - done.
  - intros [Hr Hrs]. split; [by rewrite <- Hp | by apply IH].
  - intros [[Hab Ha]%Forall_cons [Hb Hrs]]. repeat split; try done.
    constructor; [| done]. intros Hba. by apply Hab, same_id_sym.
  - intros H. by apply IH2, IH1.
Qed.

Lemma ids_distinct_same_ids rs rs' :
  Forall2 (fun a b => a !! "id" = b !! "id") rs rs' ->
  ids_distinct rs -> ids_distinct rs'.
Proof.
  induction 1 as [| a b rs rs' Hab Hrs IH]; [done |]. simpl.
  intros [Ha Hd]. split; [| by apply IH].
  clear IH Hd. induction Hrs as [| c e rs rs' Hce _ IH]; [done |].
  apply Forall_cons in Ha as [Hac Ha]. constructor; [| by apply IH].
  intros Hbe. apply Hac. by eapply same_id_ext; [symmetry | symmetry |].
Qed.

Lemma ids_distinct_filter f rs : ids_distinct rs -> ids_distinct (List.filter f rs).
Proof.
  induction rs as [| r rs IH]; simpl; [done |].
  intros [Hr Hrs]. destruct (f r); [| by apply IH].
  simpl. split; [by apply Forall_filter_bool | by apply IH].
Qed.

Lemma ids_distinct_new stamp text due rs :
  id_absent (VNum stamp) rs -> ids_distinct rs ->
  ids_distinct (new_reminder stamp text due :: rs).
Proof.
  intros Habs Hrs. split; [| done].
  eapply Forall_impl; [exact Habs |]. intros r Hr. unfold same_id.
  destruct (new_reminder_fields stamp text due) as (-> & _).
  simpl in Hr. destruct (r !! "id") as [x |]; [| by intros []].
  by rewrite py_eq_sym, Hr.
Qed.

Lemma ids_distinct_insert i r r' rs :
  rs !! i = Some r -> r' !! "id" = r !! "id" ->
  ids_distinct rs -> ids_distinct (<[i := r']> rs).
Proof.
  intros Hi Hid. apply ids_distinct_same_ids.
  apply Forall2_same_length_lookup. split; [by rewrite length_insert |].
  intros j a b Ha Hb. destruct (decide (i = j)) as [<- | Hij].
  - rewrite list_lookup_insert_eq in Hb by by eapply lookup_lt_Some.
    by simplify_eq.
  - rewrite list_lookup_insert_ne in Hb by done. by simplify_eq.
Qed.

Lemma step_ids_distinct st a st' :
  well_kept (reminders st) -> fresh_stamp st a -> step st a = Ok st' ->
  ids_distinct (reminders st) -> ids_distinct (reminders st').
Proof.
  intros [Hk _] Hfresh.
  destruct a as [text q now stamp | i reply now | sel confirm | now]; cbn [step].
  - destruct (add_reminder text q now stamp st) as [[st1 shown] |] eqn:Hop;
      simpl; [| done].
    intros [= <-] Hd.
    destruct (add_reminder_cases _ _ _ _ _ _ _ Hk Hop) as [-> | [Hp _]]; [done |].
    eapply ids_distinct_perm; [symmetry; exact Hp |].
    by apply ids_distinct_new.
  - destruct (edit_reminder_dialog i reply now st) as [[st1 shown] |] eqn:Hop;
      simpl; [| done].
    intros [= <-] Hd.
    destruct (edit_reminder_cases _ _ _ _ _ _ Hk Hop)
      as [-> | (j & r & t & due & reset & Hj & Hp & _)]; [done |].
    eapply ids_distinct_perm; [symmetry; exact Hp |].
    eapply ids_distinct_insert; [exact Hj | | done].
    by apply edited_reminder_fields.
  - destruct (delete_reminder sel confirm st) as [[st1 shown] |] eqn:Hop;
      simpl; [| done].
    intros [= <-] Hd.
    destruct (delete_reminder_cases _ _ _ _ _ Hk Hop) as [-> | [x ->]]; [done |].
    by apply ids_distinct_filter.
  - destruct (scan now (reminders st)) as [[rs es] |] eqn:Hop; simpl; [| done].
    intros [= <-]. apply ids_distinct_same_ids.
    apply scan_from_inv in Hop.
    eapply Forall2_impl; [exact Hop |].
    intros r r' [-> | ->]; [done |].
    unfold mark_notified. by rewrite lookup_insert_ne.
Qed.

(** ** The due-check *)


(** ** Editing *)


(** ** Adding *)

(** C3. [add_reminder] with an empty text, or with a due time at or before
    [now], shows the input-error warning and returns with the application
    state, and so the store, exactly as it was. *)
Theorem add_rejects_invalid text q now stamp st :
  text = "" \/ instant_of (astimezone q) <= instant_of (astimezone now) ->
  exists message,
    add_reminder text q now stamp st
    = Ok (st, [Warning "Input Error" message]).
Proof.
  intros Hbad. unfold add_reminder.
  destruct (decide (text = "")) as [-> | Htext].
  - rewrite bool_decide_eq_true_2 by done. by eexists.
  - destruct Hbad as [? | Hpast]; [done |].
    rewrite bool_decide_eq_false_2 by done.
    rewrite dt_le_astimezone. cbn [mbind result_bind].
    rewrite bool_decide_eq_true_2 by done. by eexists.
Qed.

(** C4. [add_reminder] with a non-empty text and a due time after [now]
    succeeds without a message box: the new store is the old records, all
    unchanged, and exactly one new record with that text, that due time and
    [notified = False], in ascending order of due time. *)
Theorem add_inserts_one_sorted text q now stamp st :
  well_kept (reminders st) ->
  text <> "" ->
  instant_of (astimezone now) < instant_of (astimezone q) ->
  exists st' new,
    add_reminder text q now stamp st = Ok (st', [])
    /\ reminders st' ≡ₚ new :: reminders st
    /\ new !! "text" = Some (VStr text)
    /\ new !! "dateTime" = Some (VDatetime (astimezone q))
    /\ new !! "notified" = Some (VBool false)
    /\ ascending (reminders st').
Proof.
  intros [Hk _] Htext Hfuture.
  destruct (add_reminder_valid text q now stamp st Hk Htext Hfuture)
    as (rs & f & Hadd & Hperm & [_ Hasc]).
  exists (App rs f), (new_reminder stamp text (astimezone q)).
  destruct (new_reminder_fields stamp text (astimezone q)) as (_ & ? & ? & ?).
  by repeat split.
Qed.

(** ** Persistence *)

Lemma persisted_loads r :
  (forall d, valid_datetime d = true -> fromisoformat (isoformat d) = Some d) ->
  kept r -> valid_due r ->
  load_item (Obj (persisted r)) = Ok r.
Proof.
  intros Hiso (Hdue & _ & _ & Hn & _) Hvalid.
  destruct Hdue as [i Hi]. apply due_at_lookup in Hi as (w & o & Hd & _).
  unfold valid_due in Hvalid. rewrite Hd in Hvalid.
  unfold persisted. rewrite Hd. cbn [load_item]. unfold getitem.
  rewrite lookup_insert_eq. cbn [mbind result_bind].
  rewrite (Hiso _ Hvalid). rewrite ensure_aware_aware.
  rewrite insert_insert_eq, (insert_id r "dateTime" _ Hd).
  by rewrite setdefault_present.
Qed.

Lemma persisted_load_items rs :
  (forall d, valid_datetime d = true -> fromisoformat (isoformat d) = Some d) ->
  Forall kept rs -> Forall valid_due rs ->
  load_items (Obj <$> (persisted <$> rs)) = rs.
Proof.
  intros Hiso Hk Hv. induction Hk as [| r rs Hr _ IH]; [done |].
  apply Forall_cons in Hv as [Hvr Hv].
  cbn [fmap list_fmap load_items].
  rewrite (persisted_loads r Hiso Hr Hvr). f_equal. by apply IH.
Qed.

(** C5. When [fromisoformat] reads back what [isoformat] writes, saving a
    store whose records all have a valid timezone-aware due time and loading
    the file again gives the same sequence of records: every record equal to
    the original, so equal in text, due time and [notified], in the same
    order. *)
Theorem save_then_load_roundtrip st :
  (forall d, valid_datetime d = true -> fromisoformat (isoformat d) = Some d) ->
  well_kept (reminders st) ->
  Forall valid_due (reminders st) ->
  exists f,
    save_reminders st = (App (reminders st) f, [])
    /\ load_reminders f = Ok (App (reminders st) f).
Proof.
  intros Hiso [Hk Hasc] Hvalid. destruct st as [rs f0]. simpl in *.
  eexists. split; [by apply save_reminders_kept |].
  unfold load_reminders. rewrite persisted_load_items by done.
  rewrite sort_reminders_id by (by apply kept_due_all || done). simpl.
  by rewrite update_list_kept.
Qed.

Lemma filter_length_lt {A} (f : A -> bool) l :
  Exists (fun x => f x = false) l -> (length (List.filter f l) < length l)%nat.
Proof.
  induction 1 as [x l Hx | x l _ IH]; cbn [List.filter length].
  - rewrite Hx. pose proof (filter_length_le f l). lia.
  - destruct (f x); cbn [length]; lia.
Qed.

(** C10. [save_reminders] writes exactly the records of the store whose
    [dateTime] is a datetime, in store order and with the datetime in ISO
    format, and shows nothing for a record it leaves out; the file has no
    more records than the store, fewer when a record is left out, and a
    record left out is not in the store the next [load_reminders] builds. *)
Theorem save_writes_valid_records st :
  Forall storable (reminders st) ->
  exists written,
    save_reminders st = (App (reminders st) (JsonItems (Obj <$> written)), [])
    /\ written = persisted <$> List.filter has_datetime (reminders st)
    /\ (length written <= length (reminders st))%nat
    /\ (Exists (fun r => has_datetime r = false) (reminders st) ->
        (length written < length (reminders st))%nat)
    /\ (forall r st',
          has_datetime r = false ->
          load_reminders (JsonItems (Obj <$> written)) = Ok st' ->
          r ∉ reminders st').
Proof.
  intros Hst. eexists. split; [by apply save_reminders_storable |].
  split; [done |]. rewrite length_fmap. split; [apply filter_length_le |].
  split.
  - apply filter_length_lt.
  - intros r st' Hr Hload Hin.
    apply load_reminders_sorted in Hload as [Hdue _].
    rewrite Forall_forall in Hdue. destruct (Hdue r Hin) as [i Hi].
    apply due_at_lookup in Hi as (w & o & Hd & _).
    unfold has_datetime in Hr. by rewrite Hd in Hr.
Qed.

(** ** The order of the store *)

(** C6. In every state of a session, that is after [load_reminders] has read
    the file and after each add, edit, delete and wake that follows, the
    records of the store are in ascending order of due time. *)
Theorem store_always_ascending st : reachable st -> ascending (reminders st).
Proof. intros Hst. by apply reachable_well_kept. Qed.

(** ** The loop of the checker thread *)

Lemma titled_due now r : titled r -> is_due now r = true -> has_title r.
Proof.
  unfold titled, has_datetime. intros Ht Hdue. apply Ht.
  unfold is_due in Hdue. by destruct (r !! "dateTime") as [[] |].
Qed.

Lemma has_datetime_checked now r : has_datetime (checked now r) = has_datetime r.
Proof.
  rewrite checked_eq. destruct (is_due now r); [| done].
  unfold has_datetime, mark_notified. by rewrite lookup_insert_ne.
Qed.

Lemma checked_skips now r : has_datetime r = false -> checked now r = r.
Proof.
  rewrite checked_eq. unfold has_datetime, is_due.
  by destruct (r !! "dateTime") as [[] |].
Qed.

Lemma titled_checked now r : titled r -> titled (checked now r).
Proof.
  unfold titled. rewrite has_datetime_checked. intros Ht Hd.
  destruct (Ht Hd) as [t Htext]. exists t.
  rewrite checked_eq. destruct (is_due now r); [| done].
  unfold mark_notified. by rewrite lookup_insert_ne.
Qed.


(** ** Deleting *)

(** C8, as the code has it.  When no reminder of the store has the id of the
    selected row, [delete_reminder] reports no error: it asks the question
    about "this reminder" and, whatever the answer, leaves the records of the
    store as they were. *)
Theorem delete_absent_id_keeps_store reminder_id confirm st :
  well_kept (reminders st) ->
  id_absent reminder_id (reminders st) ->
  exists f,
    delete_reminder (Some reminder_id) confirm st
    = Ok (App (reminders st) f, [Question "Confirm Delete" None]).
Proof.
  intros [Hk _] Habs. destruct confirm.
  - destruct (delete_reminder_confirmed reminder_id st Hk) as (subject & f & Hdel).
    exists f. rewrite Hdel. rewrite filter_other_id_absent by done.
    unfold delete_reminder in Hdel.
    rewrite (find_text_absent reminder_id _ Hk Habs) in Hdel.
    cbn [mbind result_bind] in Hdel.
    destruct (remove_id _ _) as [rs |]; [| done]. cbn [mbind result_bind] in Hdel.
    destruct (update_list rs) as [[] |]; [| done]. cbn [mbind result_bind] in Hdel.
    destruct (save_reminders _). by simplify_eq.
  - exists (settings_file st). unfold delete_reminder.
    rewrite (find_text_absent reminder_id _ Hk Habs). by destruct st.
Qed.

(** ** Ids *)


(** ** Loading, item by item *)

(** The record [load_reminders] makes of an object of the file. *)
Lemma load_item_obj m r :
  load_item (Obj m) = Ok r <->
  exists s d, m !! "dateTime" = Some (VStr s) /\ fromisoformat s = Some d
    /\ r = setdefault "notified" (VBool false)
             (<["dateTime" := VDatetime (ensure_aware d)]> m).
Proof.
  split.
  - intros (m' & s & d & [= <-] & ? & ? & ?)%load_item_inv. eauto.
  - intros (s & d & Hs & Hd & ->). cbn [load_item]. unfold getitem.
    rewrite Hs. cbn [mbind result_bind]. by rewrite Hd.
Qed.

Lemma load_items_elem_2 items it r :
  it ∈ items -> load_item it = Ok r -> r ∈ load_items items.
Proof.
  induction items as [| it0 items IH]; [by intros ?%elem_of_nil |].
  intros [-> | Hin]%elem_of_cons Hr; cbn [load_items].
  - rewrite Hr. left.
  - destruct (load_item it0); [right |]; by apply IH.
Qed.

Lemma load_items_due items :
  Forall (fun r => is_Some (due_at r)) (load_items items).
Proof.
  apply Forall_forall. intros r (it & _ & Hit)%load_items_elem.
  apply load_item_due in Hit as [d Hd]. by eapply due_at_ensure_aware.
Qed.

Lemma load_reminders_items items st :
  load_reminders (JsonItems items) = Ok st -> reminders st ≡ₚ load_items items.
Proof.
  unfold load_reminders.
  destruct (sort_reminders_sorted _ (load_items_due items)) as (rs & -> & Hp & _).
  cbn [try_except]. destruct (update_list rs) as [[] |]; simpl; [| done].
  by intros [= <-].
Qed.

Lemma load_reminders_elem items st r :
  load_reminders (JsonItems items) = Ok st ->
  (r ∈ reminders st <->
   exists m s d,
     Obj m ∈ items /\ m !! "dateTime" = Some (VStr s)
     /\ fromisoformat s = Some d
     /\ r = setdefault "notified" (VBool false)
              (<["dateTime" := VDatetime (ensure_aware d)]> m)).
Proof.
  intros Hload. rewrite (load_reminders_items items st Hload). split.
  - intros (it & Hin & Hit)%load_items_elem.
    destruct (load_item_inv it r Hit) as (m & s & d & -> & ? & ? & ?).
    eauto 10.
  - intros (m & s & d & Hin & Hs & Hd & Hr).
    apply (load_items_elem_2 items (Obj m)); [done |].
    apply load_item_obj. eauto.
Qed.


Lemma update_list_ok rs :
  Forall (fun r => is_Some (r !! "dateTime")
                   /\ (has_datetime r = true ->
                       is_Some (r !! "text") /\ is_Some (r !! "id"))) rs ->
  update_list rs = Ok ().
Proof.
  induction 1 as [| r rs [[v Hv] Hr] _ IH]; [done |].
  cbn [update_list]. unfold update_item, getitem, has_datetime in *.
  rewrite Hv in *. cbn [mbind result_bind].
  destruct v; try exact IH.
  destruct (Hr eq_refl) as [[t ->] [x ->]]. exact IH.
Qed.

Lemma update_list_raises rs e :
  update_list rs = Raise e ->
  Exists (fun r => (r !! "dateTime" = None /\ e = KeyError "dateTime")
                   \/ (has_datetime r = true
                       /\ ((r !! "text" = None /\ e = KeyError "text")
                           \/ (r !! "id" = None /\ e = KeyError "id")))) rs.
Proof.
  induction rs as [| r rs IH]; [done |]. cbn [update_list].
  destruct (update_item r) as [[] | e'] eqn:Hr; cbn [mbind result_bind].
  - intros Hex%IH. by right.
  - intros [= ->]. left. unfold update_item, getitem, has_datetime in *.
    destruct (r !! "dateTime") as [v |] eqn:Hv; cbn [mbind result_bind] in Hr.
    2: { injection Hr as <-. by left. }
    destruct v; try done. right. split; [done |].
    destruct (r !! "text") eqn:Ht; cbn [mbind result_bind] in Hr.
    2: { injection Hr as <-. by left. }
    destruct (r !! "id") eqn:Hi; cbn [mbind result_bind] in Hr; [done |].
    injection Hr as <-. by right.
Qed.


(** ** Where [add_reminder] puts the new reminder *)

Lemma sort_keyed_snoc l x :
  StronglySorted key_le l -> Forall key_aware l -> key_aware x ->
  exists a b,
    sort_keyed (l ++ [x]) = Ok (a ++ x :: b) /\ l = a ++ b
    /\ Forall (fun p => key_le p x) a /\ Forall (key_lt x) b.
Proof.
  intros Hsorted Haware [i Hi]. destruct x as [kx rx]. simpl in Hi.
  induction Hsorted as [| [ky ry] l Hsorted IH Hhd].
  - exists [], []. by repeat split.
  - apply Forall_cons in Haware as [[j Hj] Haware]. simpl in Hj.
    destruct (IH Haware) as (a & b & Hs & -> & Ha & Hb).
    cbn [app sort_keyed]. rewrite Hs. cbn [mbind result_bind].
    destruct a as [| [ka ra] a].
    + cbn [app insert_keyed]. rewrite (py_lt_aware kx ky i j) by done.
      cbn [mbind result_bind]. destruct (Z.ltb_spec i j) as [Hlt | Hge].
      * rewrite insert_keyed_first by done. cbn [fmap result_fmap].
        exists [], ((ky, ry) :: b). repeat split; try done.
        constructor; [| done]. unfold key_lt. simpl. by rewrite Hi, Hj.
      * exists [(ky, ry)], b. repeat split; try done.
        constructor; [| done]. unfold key_le. simpl. rewrite Hi, Hj. lia.
    + pose proof Hhd as [Hya _]%Forall_cons.
      pose proof Ha as [Hax _]%Forall_cons.
      assert (Hyx : key_le (ky, ry) (kx, rx)) by by eapply key_le_trans.
      apply Forall_app in Hhd as [Hh1 Hh2].
      rewrite insert_keyed_first.
      2: { apply Forall_app. split; [done | by constructor]. }
      exists ((ky, ry) :: (ka, ra) :: a), b. repeat split; try done.
      by constructor.
Qed.

Lemma sort_reminders_snoc rs new :
  ascending rs -> Forall (fun r => is_Some (due_at r)) rs -> is_Some (due_at new) ->
  exists before after,
    sort_reminders (rs ++ [new]) = Ok (before ++ new :: after)
    /\ rs = before ++ after
    /\ Forall (fun r => due_le r new) before /\ Forall (due_lt new) after.
Proof.
  intros Hasc Hdue Hnew.
  destruct (sort_keyed_snoc (keyed <$> rs) (keyed new)) as (a & b & Hs & Hab & Ha & Hb).
  { by apply sorted_keyed. }
  { apply Forall_fmap. eapply Forall_impl; [exact Hdue |].
    intros r Hr. unfold key_aware, compose. by rewrite keyed_due. }
  { unfold key_aware. by rewrite keyed_due. }
  apply fmap_app_inv in Hab as (before & after & -> & -> & ->).
  exists before, after. split; [| split; [done |]].
  - unfold sort_reminders. rewrite with_keys_ok.
    2: { apply Forall_app. split; [| constructor; [| done]].
         - eapply Forall_impl; [exact Hdue |]. intros r [i Hi].
           unfold due_at in Hi. by destruct (r !! "dateTime").
         - destruct Hnew as [i Hi]. unfold due_at in Hi.
           by destruct (new !! "dateTime"). }
    cbn [mbind result_bind]. rewrite fmap_app. cbn [fmap list_fmap].
    rewrite Hs. cbn [mbind result_bind]. f_equal.
    rewrite fmap_app. cbn [fmap list_fmap]. by rewrite !keyed_snd.
  - rewrite Forall_fmap in Ha. rewrite Forall_fmap in Hb. split.
    + eapply Forall_impl; [exact Ha |]. intros r. unfold compose.
      by rewrite key_le_keyed.
    + eapply Forall_impl; [exact Hb |]. intros r. unfold compose, key_lt, due_lt.
      by rewrite !keyed_due.
Qed.

(** X3. A successful [add_reminder] keeps the old reminders in their order and
    puts the new one after every reminder due at the same time or earlier
    and before every reminder due later. *)
Theorem add_places_new_after_equal_due text q now stamp st :
  well_kept (reminders st) ->
  text <> "" ->
  instant_of (astimezone now) < instant_of (astimezone q) ->
  exists before after f,
    add_reminder text q now stamp st
    = Ok (App (before ++ new_reminder stamp text (astimezone q) :: after) f, [])
    /\ reminders st = before ++ after
    /\ Forall (fun r => due_le r (new_reminder stamp text (astimezone q))) before
    /\ Forall (due_lt (new_reminder stamp text (astimezone q))) after.
Proof.
  intros [Hk Hasc] Htext Hfuture.
  pose proof (new_reminder_kept stamp text q) as Hnew.
  destruct (sort_reminders_snoc (reminders st) (new_reminder stamp text (astimezone q)))
    as (before & after & Hsort & Hsplit & Hb & Ha);
    [done | by apply kept_due_all | by destruct Hnew |].
  assert (Hkept : Forall kept (before ++ new_reminder stamp text (astimezone q) :: after)).
  { rewrite Hsplit in Hk. apply Forall_app in Hk as [? ?].
    apply Forall_app. split; [done | by constructor]. }
  exists before, after. eexists. split; [| done].
  unfold add_reminder. rewrite bool_decide_eq_false_2 by done.
  rewrite dt_le_astimezone. cbn [mbind result_bind].
  rewrite bool_decide_eq_false_2 by lia.
  rewrite Hsort. cbn [mbind result_bind].
  rewrite update_list_kept by done. cbn [mbind result_bind].
  by rewrite save_reminders_kept.
Qed.

(** ** What a confirmed delete removes *)

Lemma id_absent_filter reminder_id rs :
  id_absent reminder_id (List.filter (other_id reminder_id) rs).
Proof.
  unfold id_absent. induction rs as [| r rs IH]; cbn [List.filter]; [done |].
  destruct (other_id reminder_id r) eqn:Hr; [| done].
  constructor; [| done]. unfold other_id in Hr.
  destruct (r !! "id"); [by apply negb_true_iff | done].
Qed.

(** X4. A confirmed [delete_reminder] removes every reminder whose id equals the
    id of the selected row, all of them when several have it, and nothing
    else: the others stay, in their order, and the store stays sorted. *)
Theorem delete_removes_every_match reminder_id st :
  well_kept (reminders st) ->
  exists subject f rs,
    delete_reminder (Some reminder_id) true st
    = Ok (App rs f, [Question "Confirm Delete" subject])
    /\ rs = List.filter (other_id reminder_id) (reminders st)
    /\ id_absent reminder_id rs
    /\ (forall r, r ∈ rs <->
                  r ∈ reminders st /\ exists x, r !! "id" = Some x
                                               /\ py_eq x reminder_id = false)
    /\ ascending rs.
Proof.
  intros [Hk Hasc].
  destruct (delete_reminder_confirmed reminder_id st Hk) as (subject & f & Hdel).
  exists subject, f, (List.filter (other_id reminder_id) (reminders st)).
  split; [done |]. split; [done |]. split; [apply id_absent_filter |].
  split; [| by apply ascending_filter].
  intros r. rewrite list_elem_of_In, filter_In, <- list_elem_of_In.
  split.
  - intros [Hin Hother]. split; [done |].
    rewrite Forall_forall in Hk. destruct (Hk r Hin) as (_ & _ & [x Hx] & _).
    exists x. split; [done |]. unfold other_id in Hother. rewrite Hx in Hother.
    by apply negb_true_iff.
  - intros (Hin & x & Hx & Hne). split; [done |].
    unfold other_id. rewrite Hx. by apply negb_true_iff.
Qed.

(** ** Actions the user declines or that name no reminder *)


Lemma find_reminder_absent reminder_id rs :
  Forall kept rs -> id_absent reminder_id rs ->
  find_reminder reminder_id rs = Ok None.
Proof.
  intros Hk Habs. induction Hk as [| r rs Hr _ IH]; [done |].
  apply Forall_cons in Habs as [Hx Habs].
  destruct Hr as (_ & _ & [x Hid] & _). rewrite Hid in Hx.
  cbn [find_reminder]. unfold getitem. rewrite Hid. cbn [mbind result_bind].
  rewrite Hx, (IH Habs). reflexivity.
Qed.

(** X6. [edit_reminder_dialog] for an id that no reminder of the store has shows
    the error box "Could not find reminder data to edit." and changes
    nothing, whatever the dialog would have returned. *)
Theorem edit_of_unknown_id_is_an_error reminder_id reply now st :
  well_kept (reminders st) ->
  id_absent reminder_id (reminders st) ->
  edit_reminder_dialog reminder_id reply now st
  = Ok (st, [Critical "Error" "Could not find reminder data to edit."]).
Proof.
  intros [Hk _] Habs. unfold edit_reminder_dialog.
  by rewrite (find_reminder_absent reminder_id _ Hk Habs).
Qed.


(** ** Consecutive wakes *)

Lemma is_due_mark_notified now r : is_due now (mark_notified r) = false.
Proof.
  unfold is_due, mark_notified, notified, get.
  rewrite lookup_insert_ne by done. rewrite lookup_insert_eq.
  by destruct (r !! "dateTime") as [[] |].
Qed.

Lemma is_due_checked now now' r :
  is_due now' (checked now r) = is_due now' r && negb (is_due now r).
Proof.
  rewrite checked_eq. destruct (is_due now r).
  - by rewrite is_due_mark_notified, andb_false_r.
  - by rewrite andb_true_r.
Qed.

Lemma event_of_checked now r : event_of (checked now r) = event_of r.
Proof.
  rewrite checked_eq. destruct (is_due now r); [| done].
  unfold event_of, mark_notified. by rewrite !lookup_insert_ne.
Qed.

Lemma filter_fmap_bool {A B} (f : B -> bool) (g : A -> B) l :
  List.filter f (g <$> l) = g <$> List.filter (fun x => f (g x)) l.
Proof.
  induction l as [| x l IH]; [done |]. cbn [fmap list_fmap List.filter].
  destruct (f (g x)); cbn [fmap list_fmap]; by rewrite IH.
Qed.


(** ** What reaches the file *)

Lemma in_sync_kept rs f :
  Forall kept rs -> in_sync (save_reminders (App rs f)).1.
Proof.
  intros Hk. unfold in_sync. rewrite (save_reminders_kept rs f Hk). simpl.
  by rewrite save_reminders_kept.
Qed.

Lemma commit_in_sync rs0 f0 st' shown :
  Forall kept rs0 ->
  (rs ← sort_reminders rs0; _ ← update_list rs;
   Ok (save_reminders (App rs f0))) = Ok (st', shown) ->
  in_sync st'.
Proof.
  intros Hk. destruct (commit_kept rs0 Hk) as (rs & -> & _ & [Hk' _] & Hshown).
  cbn [mbind result_bind]. rewrite Hshown. cbn [mbind result_bind].
  intros [= Hst]. pose proof (in_sync_kept rs f0 Hk') as Hsync.
  rewrite Hst in Hsync. exact Hsync.
Qed.

Lemma add_reminder_in_sync text q now stamp st st' shown :
  Forall kept (reminders st) ->
  add_reminder text q now stamp st = Ok (st', shown) ->
  st' = st \/ in_sync st'.
Proof.
  intros Hk. unfold add_reminder.
  destruct (bool_decide (text = "")); [intros [= <- _]; by left |].
  rewrite dt_le_astimezone. cbn [mbind result_bind].
  destruct (bool_decide _); [intros [= <- _]; by left |].
  intros Hop. right. eapply commit_in_sync; [| exact Hop].
  apply Forall_app. split; [done |]. constructor; [| done].
  apply new_reminder_kept.
Qed.

Lemma delete_reminder_in_sync selected confirm st st' shown :
  Forall kept (reminders st) ->
  delete_reminder selected confirm st = Ok (st', shown) ->
  st' = st \/ in_sync st'.
Proof.
  intros Hk. destruct selected as [reminder_id |]; [| intros [= <- _]; by left].
  destruct confirm.
  - unfold delete_reminder.
    destruct (find_text_kept reminder_id _ Hk) as [subject ->].
    cbn [mbind result_bind]. rewrite remove_id_filter by done.
    cbn [mbind result_bind].
    assert (Hk' : Forall kept (List.filter (other_id reminder_id) (reminders st)))
      by by apply Forall_filter_bool.
    rewrite update_list_kept by done. cbn [mbind result_bind].
    pose proof (in_sync_kept _ (settings_file st) Hk') as Hsync.
    destruct (save_reminders _) as [st1 shown1]. intros [= <- _]. by right.
  - unfold delete_reminder.
    destruct (find_text_kept reminder_id _ Hk) as [subject ->].
    intros [= <- _]. by left.
Qed.

Lemma edit_reminder_in_sync reminder_id reply now st st' shown :
  Forall kept (reminders st) ->
  edit_reminder_dialog reminder_id reply now st = Ok (st', shown) ->
  st' = st \/ in_sync st'.
Proof.
  intros Hk. unfold edit_reminder_dialog.
  destruct (find_reminder_kept reminder_id _ Hk) as [[[i r] |] Hfound];
    rewrite Hfound; cbn [mbind result_bind]; [| intros [= <- _]; by left].
  destruct (bool_decide (r = ∅)); [intros [= <- _]; by left |].
  assert (Hr : kept r).
  { rewrite Forall_forall in Hk. apply Hk.
    eapply list_elem_of_lookup_2. by eapply find_reminder_lookup. }
  pose proof Hr as ([d Hd] & _). apply due_at_lookup in Hd as (w & o & Hd & _).
  unfold getitem. rewrite Hd. cbn [mbind result_bind].
  destruct reply as [[new_text edited] |]; [| intros [= <- _]; by left].
  destruct (bool_decide (new_text = "")); [intros [= <- _]; by left |].
  rewrite dt_le_astimezone. cbn [mbind result_bind].
  destruct (bool_decide _); [intros [= <- _]; by left |].
  rewrite dt_gt_astimezone. cbn [mbind result_bind].
  destruct (if bool_decide _ then _ else _) as [reset |]; cbn [mbind result_bind];
    [| done].
  intros Hop. right. eapply commit_in_sync; [| exact Hop].
  apply Forall_insert; [done |]. by apply edited_reminder_kept.
Qed.

(** X9. Whatever add, edit or delete changes is written at once: after such an
    action either the state is the one before, or the file holds exactly what
    [save_reminders] writes for the new store. *)
Theorem changes_are_saved_at_once st a st' :
  well_kept (reminders st) ->
  (forall now, a <> Poll now) ->
  step st a = Ok st' ->
  st' = st \/ in_sync st'.
Proof.
  intros [Hk _] Hnot.
  destruct a as [text q now stamp | i reply now | sel confirm | now]; cbn [step].
  - destruct (add_reminder text q now stamp st) as [[st1 shown] |] eqn:Hop;
      simpl; [| done].
    intros [= <-]. by eapply add_reminder_in_sync.
  - destruct (edit_reminder_dialog i reply now st) as [[st1 shown] |] eqn:Hop;
      simpl; [| done].
    intros [= <-]. by eapply edit_reminder_in_sync.
  - destruct (delete_reminder sel confirm st) as [[st1 shown] |] eqn:Hop;
      simpl; [| done].
    intros [= <-]. by eapply delete_reminder_in_sync.
  - by destruct (Hnot now).
Qed.

Lemma in_sync_loads st :
  (forall d, valid_datetime d = true -> fromisoformat (isoformat d) = Some d) ->
  well_kept (reminders st) -> Forall valid_due (reminders st) ->
  in_sync st -> load_reminders (settings_file st) = Ok st.
Proof.
  intros Hiso [Hk Hasc] Hvalid Hsync. destruct st as [rs f]. simpl in *.
  unfold in_sync in Hsync. rewrite save_reminders_kept in Hsync by done.
  injection Hsync as Hf. rewrite <- Hf at 1.
  unfold load_reminders. rewrite persisted_load_items by done.
  rewrite sort_reminders_id by (by apply kept_due_all || done).
  cbn [try_except]. rewrite update_list_kept by done. cbn [mbind result_bind].
  by rewrite Hf.
Qed.

(** X10. A wake does not write the file.  When the file is in step with the
    store, a wake marks the due reminders in the store only: loading the
    file afterwards, as the next start of the application does, gives the
    store of before the wake, with those reminders not notified. *)
Theorem wake_marks_are_lost_on_restart st now st' :
  (forall d, valid_datetime d = true -> fromisoformat (isoformat d) = Some d) ->
  well_kept (reminders st) -> Forall valid_due (reminders st) ->
  in_sync st ->
  step st (Poll now) = Ok st' ->
  settings_file st' = settings_file st
  /\ load_reminders (settings_file st') = Ok st.
Proof.
  intros Hiso Hwk Hvalid Hsync. cbn [step].
  destruct (scan now (reminders st)) as [[rs es] |]; cbn [mbind result_bind];
    [| done].
  intros [= <-]. split; [done |]. simpl. by apply in_sync_loads.
Qed.

(** X11. In a session [save_reminders] leaves no record out and shows no error:
    in every reachable state it writes one object for each reminder of the
    store. *)
Theorem session_save_writes_every_record st :
  reachable st ->
  save_reminders st
  = (App (reminders st) (JsonItems (Obj <$> (persisted <$> reminders st))), []).
Proof.
  intros [Hk _]%reachable_well_kept. destruct st as [rs f].
  by apply save_reminders_kept.
Qed.

(** ** Stopping the loop *)


(** ** The rows of the list widget *)

Lemma list_row_kept now r :
  kept r -> exists x, list_row (astimezone now) r = Ok (Some x) /\ row_of now r x.
Proof.
  intros ([d Hd] & [t Ht] & [x Hx] & _).
  pose proof Hd as Hdue.
  apply due_at_lookup in Hd as (w & o & Hdt & ->).
  unfold list_row, getitem. rewrite Hdt, Ht, Hx. cbn [mbind result_bind].
  rewrite dt_le_ensure_aware. rewrite ensure_aware_aware.
  exists (Row t (Datetime w (Some o))
            (if notified r then NotifiedRow
             else if overdue now r then PastDueRow else Plain) x).
  unfold row_of, notified, overdue. rewrite Hdue. unfold instant_of. simpl.
  destruct (truthy _); cbn [mbind result_bind]; by repeat split.
Qed.

Lemma list_rows_kept now rs :
  Forall kept rs ->
  exists rows, list_rows now rs = Ok rows /\ Forall2 (row_of now) rs rows.
Proof.
  unfold list_rows. induction 1 as [| r rs Hr _ (rows & Hrows & Hall)].
  - by exists [].
  - destruct (list_row_kept now r Hr) as (x & Hx & Hrow).
    exists (x :: rows). cbn [list_rows_from]. rewrite Hx. cbn [mbind result_bind].
    rewrite Hrows. split; [done | by constructor].
Qed.

Lemma list_rows_update_list now rs :
  update_list rs = (fun _ => ()) <$> list_rows now rs.
Proof.
  unfold list_rows. induction rs as [| r rs IH]; [done |].
  cbn [update_list list_rows_from]. rewrite IH.
  unfold update_item, list_row, getitem.
  destruct (r !! "dateTime") as [[| | | | d] |]; cbn [mbind result_bind];
    try by destruct (list_rows_from _ rs).
  destruct (r !! "text"); cbn [mbind result_bind]; [| done].
  destruct (r !! "id"); cbn [mbind result_bind]; [| done].
  rewrite dt_le_ensure_aware.
  destruct (truthy _); cbn [mbind result_bind];
    by destruct (list_rows_from _ rs).
Qed.

(** X13. For the store of a running application [update_list] shows one row for
    each reminder, in store order, with the reminder's text, due time and
    id; the row is marked "Notified" when the reminder is notified, even if
    it is also past due, "Past Due" when it is due at or before [now] and not
    notified, and is unmarked otherwise. *)
Theorem rows_mirror_the_store now rs :
  well_kept rs ->
  exists rows,
    list_rows now rs = Ok rows
    /\ update_list rs = Ok ()
    /\ Forall2 (row_of now) rs rows.
Proof.
  intros [Hk _]. destruct (list_rows_kept now rs Hk) as (rows & Hrows & Hall).
  exists rows. split; [done |]. split; [| done].
  by rewrite (list_rows_update_list now), Hrows.
Qed.

Lemma dt_eqb_refl d : dt_eqb d d = true.
Proof.
  unfold dt_eqb, dt_compare. destruct (tzinfo d); by rewrite Z.compare_refl.
Qed.

Lemma py_eq_refl x : py_eq x x = true.
Proof.
  destruct x; simpl; try done; try (by apply bool_decide_eq_true_2).
  apply dt_eqb_refl.
Qed.

Lemma find_reminder_distinct rs i r x :
  Forall kept rs -> ids_distinct rs ->
  rs !! i = Some r -> r !! "id" = Some x ->
  find_reminder x rs = Ok (Some (i, r)).
Proof.
  intros Hk. revert i. induction Hk as [| r0 rs Hr0 Hk IH]; intros i Hd Hi Hx;
    [done |].
  destruct Hd as [Hfresh Hd]. cbn [find_reminder]. unfold getitem.
  destruct i as [| i]; simpl in Hi.
  - injection Hi as ->. rewrite Hx. cbn [mbind result_bind].
    by rewrite py_eq_refl.
  - destruct Hr0 as (_ & _ & [x0 Hx0] & _). rewrite Hx0. cbn [mbind result_bind].
    assert (Hne : py_eq x0 x = false).
    { rewrite Forall_forall in Hfresh.
      specialize (Hfresh r (list_elem_of_lookup_2 _ _ _ Hi)).
      unfold same_id in Hfresh. rewrite Hx0, Hx in Hfresh.
      by destruct (py_eq x0 x). }
    rewrite Hne, (IH i Hd Hi Hx). reflexivity.
Qed.


End Proofs.

(** * The sample session: instances of the theorems and the departures *)

Ltac by_decision := apply (bool_decide_unpack _); vm_compute; exact I.

Lemma demo_loads :
  load_reminders cest fromisoformat_canonical demo_file = Ok demo.
Proof. vm_compute. reflexivity. Qed.

Lemma demo_reachable : reachable cest fromisoformat_canonical demo.
Proof.
  exists demo_file, demo. split; [by_decision |].
  split; [exact demo_loads | constructor].
Defined.



Lemma add_rejects_invalid_witness :
  ("" = "" \/ instant_of (astimezone cest evening) <= instant_of (astimezone cest noon))
  /\ exists message,
       add_reminder cest "" evening noon (num 3) demo
       = Ok (demo, [Warning "Input Error" message]).
Proof.
  split; [by left |].
  apply (add_rejects_invalid cest "" evening noon (num 3) demo). by left.
Defined.

Lemma add_inserts_one_sorted_witness :
  well_kept (reminders demo)
  /\ "walk" <> ""
  /\ instant_of (astimezone cest noon) < instant_of (astimezone cest evening)
  /\ exists st' new,
       add_reminder cest "walk" evening noon (num 3) demo = Ok (st', [])
       /\ reminders st' ≡ₚ new :: reminders demo
       /\ new !! "text" = Some (VStr "walk")
       /\ new !! "dateTime" = Some (VDatetime (astimezone cest evening))
       /\ new !! "notified" = Some (VBool false)
       /\ ascending (reminders st').
Proof.
  assert (H1 : well_kept (reminders demo)) by by_decision.
  assert (H2 : "walk" <> "") by discriminate.
  assert (H3 : instant_of (astimezone cest noon)
               < instant_of (astimezone cest evening)) by (vm_compute; reflexivity).
  repeat (split; [assumption |]).
  exact (add_inserts_one_sorted cest "walk" evening noon (num 3) demo H1 H2 H3).
Defined.

Lemma save_then_load_roundtrip_witness :
  (forall d, valid_datetime d = true ->
             fromisoformat_canonical (isoformat d) = Some d)
  /\ well_kept (reminders demo)
  /\ Forall valid_due (reminders demo)
  /\ exists f,
       save_reminders demo = (App (reminders demo) f, [])
       /\ load_reminders cest fromisoformat_canonical f
          = Ok (App (reminders demo) f).
Proof.
  assert (H1 : well_kept (reminders demo)) by by_decision.
  assert (H2 : Forall valid_due (reminders demo)) by by_decision.
  split; [exact fromisoformat_isoformat |].
  repeat (split; [assumption |]).
  exact (save_then_load_roundtrip cest fromisoformat_canonical demo
           fromisoformat_isoformat H1 H2).
Defined.

Lemma save_writes_valid_records_witness :
  Forall storable [tea; stale; call]
  /\ exists written,
       save_reminders (App [tea; stale; call] NoFile)
       = (App [tea; stale; call] (JsonItems (Obj <$> written)), [])
       /\ written = persisted <$> List.filter has_datetime [tea; stale; call]
       /\ (length written <= length [tea; stale; call])%nat
       /\ (Exists (fun r => has_datetime r = false) [tea; stale; call] ->
           (length written < length [tea; stale; call])%nat)
       /\ (forall r st',
             has_datetime r = false ->
             load_reminders cest fromisoformat_canonical
               (JsonItems (Obj <$> written)) = Ok st' ->
             r ∉ reminders st').
Proof.
  assert (H1 : Forall storable [tea; stale; call]) by by_decision.
  split; [assumption |].
  exact (save_writes_valid_records cest fromisoformat_canonical
           (App [tea; stale; call] NoFile) H1).
Defined.

Lemma store_always_ascending_witness :
  reachable cest fromisoformat_canonical demo /\ ascending (reminders demo).
Proof.
  split; [exact demo_reachable |].
  exact (store_always_ascending cest fromisoformat_canonical demo demo_reachable).
Defined.


Lemma delete_absent_id_keeps_store_witness :
  well_kept (reminders demo)
  /\ id_absent (VNum (num 9)) (reminders demo)
  /\ exists f,
       delete_reminder (Some (VNum (num 9))) true demo
       = Ok (App (reminders demo) f, [Question "Confirm Delete" None]).
Proof.
  assert (H1 : well_kept (reminders demo)) by by_decision.
  assert (H2 : id_absent (VNum (num 9)) (reminders demo)) by by_decision.
  repeat (split; [assumption |]).
  exact (delete_absent_id_keeps_store (VNum (num 9)) true demo H1 H2).
Defined.



(** C8, as the specification states it, fails: deleting an id that no
    reminder has opens the question and no error box. *)
Lemma delete_absent_id_reports_nothing :
  id_absent (VNum (num 9)) (reminders demo)
  /\ exists st' shown,
       delete_reminder (Some (VNum (num 9))) true demo = Ok (st', shown)
       /\ existsb is_error shown = false.
Proof.
  split; [by_decision |].
  eexists _, _. split; [vm_compute; reflexivity | reflexivity].
Qed.


(** ** Instances of the further properties *)


Lemma add_places_new_after_equal_due_witness :
  well_kept (reminders demo)
  /\ "walk" <> ""
  /\ instant_of (astimezone cest noon) < instant_of (astimezone cest evening)
  /\ exists before after f,
       add_reminder cest "walk" evening noon (num 3) demo
       = Ok (App (before ++ new_reminder (num 3) "walk" (astimezone cest evening)
                         :: after) f, [])
       /\ reminders demo = before ++ after
       /\ Forall (fun r => due_le r (new_reminder (num 3) "walk"
                                       (astimezone cest evening))) before
       /\ Forall (due_lt (new_reminder (num 3) "walk" (astimezone cest evening)))
            after.
Proof.
  assert (H1 : well_kept (reminders demo)) by by_decision.
  assert (H2 : "walk" <> "") by discriminate.
  assert (H3 : instant_of (astimezone cest noon)
               < instant_of (astimezone cest evening)) by (vm_compute; reflexivity).
  repeat (split; [assumption |]).
  exact (add_places_new_after_equal_due cest "walk" evening noon (num 3) demo
           H1 H2 H3).
Defined.

Lemma delete_removes_every_match_witness :
  well_kept (reminders (App twin_store twin_file))
  /\ exists subject f rs,
       delete_reminder (Some (VNum (num 1))) true (App twin_store twin_file)
       = Ok (App rs f, [Question "Confirm Delete" subject])
       /\ rs = List.filter (other_id (VNum (num 1)))
                 (reminders (App twin_store twin_file))
       /\ id_absent (VNum (num 1)) rs
       /\ (forall r, r ∈ rs <->
                     r ∈ reminders (App twin_store twin_file)
                     /\ exists x, r !! "id" = Some x
                                  /\ py_eq x (VNum (num 1)) = false)
       /\ ascending rs.
Proof.
  assert (H1 : well_kept (reminders (App twin_store twin_file))) by by_decision.
  split; [assumption |].
  exact (delete_removes_every_match (VNum (num 1)) (App twin_store twin_file) H1).
Defined.


Lemma edit_of_unknown_id_is_an_error_witness :
  well_kept (reminders demo)
  /\ id_absent (VNum (num 9)) (reminders demo)
  /\ edit_reminder_dialog cest (VNum (num 9)) (Some ("later", evening)) noon demo
     = Ok (demo, [Critical "Error" "Could not find reminder data to edit."]).
Proof.
  assert (H1 : well_kept (reminders demo)) by by_decision.
  assert (H2 : id_absent (VNum (num 9)) (reminders demo)) by by_decision.
  repeat (split; [assumption |]).
  exact (edit_of_unknown_id_is_an_error cest (VNum (num 9))
           (Some ("later", evening)) noon demo H1 H2).
Defined.



Lemma demo_walk_added :
  step cest demo (Add "walk" evening noon (num 3)) = Ok demo_walk.
Proof. vm_compute. reflexivity. Qed.

Lemma changes_are_saved_at_once_witness :
  well_kept (reminders demo)
  /\ (forall now, Add "walk" evening noon (num 3) <> Poll now)
  /\ step cest demo (Add "walk" evening noon (num 3)) = Ok demo_walk
  /\ (demo_walk = demo \/ in_sync demo_walk).
Proof.
  assert (H1 : well_kept (reminders demo)) by by_decision.
  assert (H2 : forall now, Add "walk" evening noon (num 3) <> Poll now)
    by discriminate.
  split; [assumption |]. split; [assumption |]. split; [exact demo_walk_added |].
  exact (changes_are_saved_at_once cest demo (Add "walk" evening noon (num 3))
           demo_walk H1 H2 demo_walk_added).
Defined.

Lemma demo_saved_in_sync : in_sync demo_saved.
Proof. vm_compute. reflexivity. Qed.

Lemma demo_tea_announced : step cest demo_saved (Poll noon) = Ok demo_announced.
Proof. vm_compute. reflexivity. Qed.

Lemma wake_marks_are_lost_on_restart_witness :
  (forall d, valid_datetime d = true ->
             fromisoformat_canonical (isoformat d) = Some d)
  /\ well_kept (reminders demo_saved)
  /\ Forall valid_due (reminders demo_saved)
  /\ in_sync demo_saved
  /\ step cest demo_saved (Poll noon) = Ok demo_announced
  /\ settings_file demo_announced = settings_file demo_saved
  /\ load_reminders cest fromisoformat_canonical (settings_file demo_announced)
     = Ok demo_saved.
Proof.
  assert (H1 : well_kept (reminders demo_saved)) by by_decision.
  assert (H2 : Forall valid_due (reminders demo_saved)) by by_decision.
  split; [exact fromisoformat_isoformat |].
  split; [assumption |]. split; [assumption |].
  split; [exact demo_saved_in_sync |]. split; [exact demo_tea_announced |].
  exact (wake_marks_are_lost_on_restart cest fromisoformat_canonical demo_saved
           noon demo_announced fromisoformat_isoformat H1 H2 demo_saved_in_sync
           demo_tea_announced).
Defined.

Lemma session_save_writes_every_record_witness :
  reachable cest fromisoformat_canonical demo
  /\ save_reminders demo
     = (App (reminders demo) (JsonItems (Obj <$> (persisted <$> reminders demo))),
        []).
Proof.
  split; [exact demo_reachable |].
  exact (session_save_writes_every_record cest fromisoformat_canonical demo
           demo_reachable).
Defined.

Lemma demo_rows_listed : list_rows cest noon demo_store = Ok demo_rows.
Proof. vm_compute. reflexivity. Qed.

Lemma rows_mirror_the_store_witness :
  well_kept demo_store
  /\ exists rows,
       list_rows cest noon demo_store = Ok rows
       /\ update_list demo_store = Ok ()
       /\ Forall2 (row_of cest noon) demo_store rows.
Proof.
  assert (H1 : well_kept demo_store) by by_decision.
  split; [assumption |].
  exact (rows_mirror_the_store cest noon demo_store H1).
Defined.

